(** * vcfs2SQLite: the streaming transform-and-load step

    A shallow embedding of [transform_and_load_data] and [create_database]
    of [vcfs2SQLite_v1.py], and the properties of the loader that follow
    from it.

    Conventions of the embedding.
    - A Python [str] is a [string]; a character of the string is the code
      point of the same number (U+0000 to U+00FF), so the three superscript
      digits of that range, on which [str.isdigit] and [int] disagree, are
      present.
    - A Python [int] is a [Z]; the counters, which only count up from zero,
      are [nat].
    - A Python exception is a value of [exn]; code that may raise returns a
      [result], and [try]/[except] is [try_except].
    - The [variants] table is the list of its rows in insertion order.  A
      call of [executemany] followed by [commit] either adds the whole batch
      under INSERT OR IGNORE or raises [sqlite3.Error] and is rolled back;
      which of the two happens at the n-th attempt of a run is given by an
      oracle [nat -> bool].  Other failures of the driver (the [OverflowError]
      for an integer outside 64 bits, for one) are not modelled.
    - Reading the file is outside the embedding: the loader takes the header
      and the data rows as the [csv.reader] yields them.  Progress reporting
      (lines 236-251) only reads the clock and prints, and is left out. *)

From Stdlib Require Import List String Ascii ZArith Lia Bool Arith.
Import ListNotations.

Set Default Proof Using "Type".

Local Open Scope string_scope.
Local Open Scope nat_scope.

(** ** Exceptions *)

Inductive exn : Type :=
| IndexError
| ValueError
| SqliteError.

Inductive result (A : Type) : Type :=
| Ok (a : A)
| Raise (e : exn).

Arguments Ok {A} a.
Arguments Raise {A} e.

Definition bind {A B : Type} (c : result A) (k : A -> result B) : result B :=
  match c with
  | Ok a => k a
  | Raise e => Raise e
  end.

Notation "x <- c ;; k" := (bind c (fun x => k))
  (at level 61, c at next level, right associativity).

(** [try: body except <handled>: handler] *)
Definition try_except {A : Type} (body : result A) (handled : exn -> bool)
  (handler : result A) : result A :=
  match body with
  | Ok a => Ok a
  | Raise e => if handled e then handler else Raise e
  end.

Definition is_ValueError (e : exn) : bool :=
  match e with ValueError => true | _ => false end.

Definition is_sqlite3_Error (e : exn) : bool :=
  match e with SqliteError => true | _ => false end.

Definition is_Exception (e : exn) : bool := true.

(** ** Python built-ins used by the loader *)

(** [xs[i]] for a non-negative [i] *)
Definition getitem {A : Type} (xs : list A) (i : nat) : result A :=
  match nth_error xs i with
  | Some x => Ok x
  | None => Raise IndexError
  end.

(** Truth value of a [str]: [not s] is [negb (truthy s)]. *)
Definition truthy (s : string) : bool :=
  match s with
  | EmptyString => false
  | String _ _ => true
  end.

(** [s.split(sep)] for a one-character separator *)
Fixpoint split (sep : ascii) (s : string) : list string :=
  match s with
  | EmptyString => [EmptyString]
  | String c rest =>
      if Ascii.eqb c sep then EmptyString :: split sep rest
      else match split sep rest with
           | [] => [String c EmptyString]
           | p :: ps => String c p :: ps
           end
  end.

(** The characters '0' to '9'. *)
Definition isdecimal_char (c : ascii) : bool :=
  (48 <=? nat_of_ascii c) && (nat_of_ascii c <=? 57).

(** The characters on which [str.isdigit] holds: '0' to '9' and the
    superscripts two, three and one (U+00B2, U+00B3, U+00B9). *)
Definition isdigit_char (c : ascii) : bool :=
  isdecimal_char c
  || (nat_of_ascii c =? 178) || (nat_of_ascii c =? 179) || (nat_of_ascii c =? 185).

Fixpoint all_chars (p : ascii -> bool) (s : string) : bool :=
  match s with
  | EmptyString => true
  | String c rest => p c && all_chars p rest
  end.

(** [s.isdigit()]: at least one character, and all of them digits. *)
Definition isdigit (s : string) : bool := truthy s && all_chars isdigit_char s.

(** A non-empty text of the characters '0' to '9'. *)
Definition decimal (s : string) : bool := truthy s && all_chars isdecimal_char s.

Definition digit_value (c : ascii) : Z := Z.of_nat (nat_of_ascii c - 48).

(** Base-ten value of a text, most significant digit first. *)
Fixpoint decimal_value (acc : Z) (s : string) : Z :=
  match s with
  | EmptyString => acc
  | String c rest => decimal_value (10 * acc + digit_value c) rest
  end.

Section Loader.

(** The interpreter's bound on the number of digits [int] converts
    ([sys.get_int_max_str_digits()]: 4300 unless configured, 0 for none,
    as in the interpreters that predate the bound).  Leading zeros count. *)
Variable int_max_str_digits : nat.

Definition within_digit_limit (s : string) : bool :=
  (int_max_str_digits =? 0) || (String.length s <=? int_max_str_digits).

(** [int(s)] for a text [s] that consists of digit characters, the only
    texts the loader converts: rejected with [ValueError] when a character
    is not one of '0' to '9' or the text is longer than the bound. *)
Definition py_int (s : string) : result Z :=
  if decimal s && within_digit_limit s then Ok (decimal_value 0 s)
  else Raise ValueError.

(** ** The genotype fields of one cell (lines 175-196) *)

Record SampleCell : Type := mkSampleCell {
  gt : string;
  ad : string;
  dp : option Z;
  gq : option Z;
  pl : string
}.

(** [a, b, c, d, e = parts] *)
Definition unpack5 (parts : list string) :
  result (string * string * string * string * string) :=
  match parts with
  | [a; b; c; d; e] => Ok (a, b, c, d, e)
  | _ => Raise ValueError
  end.

(** [int(x) if x and x.isdigit() else None] *)
Definition int_or_None (x : string) : result (option Z) :=
  if truthy x && isdigit x then (n <- py_int x ;; Ok (Some n)) else Ok None.

(** Lines 191-196: the two conversions under one [try], and the handler that
    resets both. *)
Definition convert_depth_quality (dp gq : string) : result (option Z * option Z) :=
  try_except
    (dp' <- int_or_None dp ;;
     gq' <- int_or_None gq ;;
     Ok (dp', gq'))
    is_ValueError
    (Ok (None, None)).

(** Lines 175-196: [Ok None] stands for the [continue] statements. *)
Definition parse_cell (cell_value : string) : result (option SampleCell) :=
  if negb (truthy cell_value)
     || String.eqb cell_value "0:0:0:0:0" || String.eqb cell_value ".:.:.:.:."
  then Ok None
  else
    let parts := split ":" cell_value in
    if negb (List.length parts =? 5) then Ok None
    else
      fields <- unpack5 parts ;;
      let '(gt, ad, dp, gq, pl) := fields in
      converted <- convert_depth_quality dp gq ;;
      Ok (Some (mkSampleCell gt ad (fst converted) (snd converted) pl)).

(** ** The [variants] table ([create_database], lines 95-123) *)

(** One row of the table, in the order of its columns. *)
Record variant : Type := mkVariant {
  file_id : string;
  CHROM : string;
  POS : Z;
  ID : string;
  REF : string;
  ALT : string;
  GT : string;
  AD : string;
  DP : option Z;
  GQ : option Z;
  PL : string
}.

Definition table : Type := list variant.

(** [PRIMARY KEY (file_id, CHROM, POS)] *)
Definition primary_key (r : variant) : string * string * Z :=
  (file_id r, CHROM r, POS r).

Definition key_eqb (k1 k2 : string * string * Z) : bool :=
  String.eqb (fst (fst k1)) (fst (fst k2))
  && String.eqb (snd (fst k1)) (snd (fst k2))
  && Z.eqb (snd k1) (snd k2).

Definition has_key (tbl : table) (k : string * string * Z) : bool :=
  existsb (fun r => key_eqb (primary_key r) k) tbl.

(** [CREATE TABLE IF NOT EXISTS]: a database that has the table keeps it,
    [None] is a database without it. *)
Definition create_database (output_db : option table) : table :=
  match output_db with
  | Some tbl => tbl
  | None => []
  end.

(** [INSERT OR IGNORE INTO variants VALUES (...)] of one row *)
Definition insert_or_ignore (tbl : table) (r : variant) : table :=
  if has_key tbl (primary_key r) then tbl else (tbl ++ [r])%list.

(** The rows of the table once [executemany] and [commit] have gone through. *)
Definition executemany (tbl : table) (rows : list variant) : table :=
  fold_left insert_or_ignore rows tbl.

(** ** The state of the loop of [transform_and_load_data] *)

(** The error lines the loader prints. *)
Inductive message : Type :=
| Error_processing_row (row_num : nat) (sample_id : string) (basic_data : list string)
| SQLite_error
| SQLite_error_final_batch.

(** The variables of the loop, with the committed rows of the table in [db].
    [attempts] counts the calls of [executemany] so far and [stdout] keeps
    the error lines printed: neither is read by the loop. *)
Record loader : Type := mkLoader {
  batch : list variant;
  db : table;
  total_rows : nat;
  total_variants : nat;
  attempts : nat;
  stdout : list message
}.

Variable batch_size : Z.

(** The store's answer to each [executemany]/[commit] of the run, by the
    number of the attempt: [true] when it raises [sqlite3.Error]. *)
Variable sqlite_fails : nat -> bool.

Definition executemany_commit (n : nat) (tbl : table) (rows : list variant) : result table :=
  if sqlite_fails n then Raise SqliteError else Ok (executemany tbl rows).

(** Lines 199-213: the position, then the tuple. *)
Definition make_record (sample_id : string) (basic_data : list string)
  (c : SampleCell) : result variant :=
  pos_cell <- getitem basic_data 1 ;;
  pos_value <- (if isdigit pos_cell then py_int pos_cell else Ok 0%Z) ;;
  chrom <- getitem basic_data 0 ;;
  id <- getitem basic_data 2 ;;
  ref <- getitem basic_data 3 ;;
  alt <- getitem basic_data 4 ;;
  Ok (mkVariant sample_id chrom pos_value id ref alt (gt c) (ad c) (dp c) (gq c) (pl c)).

(** Lines 201 and 219: [batch.append(...)] and [total_variants += 1]. *)
Definition append (r : variant) (st : loader) : loader :=
  mkLoader (batch st ++ [r])%list (db st) (total_rows st) (S (total_variants st))
    (attempts st) (stdout st).

Definition print (m : message) (st : loader) : loader :=
  mkLoader (batch st) (db st) (total_rows st) (total_variants st)
    (attempts st) (stdout st ++ [m])%list.

(** Lines 222-232: the batch is emptied after the commit, inside the [try]. *)
Definition flush_if_full (st : loader) : result loader :=
  if (batch_size <=? Z.of_nat (List.length (batch st)))%Z then
    try_except
      (rows <- executemany_commit (attempts st) (db st) (batch st) ;;
       Ok (mkLoader [] rows (total_rows st) (total_variants st)
             (S (attempts st)) (stdout st)))
      is_sqlite3_Error
      (Ok (mkLoader (batch st) (db st) (total_rows st) (total_variants st)
             (S (attempts st)) (stdout st ++ [SQLite_error])%list))
  else Ok st.

(** Lines 169-232: the body of the loop over the samples. *)
Definition process_sample (row_num : nat) (row basic_data : list string)
  (st : loader) (i : nat) (sample_id : string) : result loader :=
  if List.length row <=? i + 5 then Ok st
  else
    cell_value <- getitem row (i + 5) ;;
    parsed <- parse_cell cell_value ;;
    match parsed with
    | None => Ok st
    | Some c =>
        built <- try_except
                   (r <- make_record sample_id basic_data c ;; Ok (Some r))
                   is_Exception
                   (Ok None) ;;
        match built with
        | None => Ok (print (Error_processing_row row_num sample_id basic_data) st)
        | Some r => flush_if_full (append r st)
        end
    end.

(** [for i, x in enumerate(xs, start): st = body(st, i, x)] *)
Fixpoint for_enumerate {A St : Type} (body : St -> nat -> A -> result St)
  (start : nat) (xs : list A) (st : St) : result St :=
  match xs with
  | [] => Ok st
  | x :: rest => st' <- body st start x ;; for_enumerate body (S start) rest st'
  end.

(** Line 234: [total_rows += 1]. *)
Definition count_row (st : loader) : loader :=
  mkLoader (batch st) (db st) (S (total_rows st)) (total_variants st)
    (attempts st) (stdout st).

(** Lines 165-234: the body of the loop over the rows. *)
Definition process_row (sample_ids : list string) (st : loader) (row_num : nat)
  (row : list string) : result loader :=
  let basic_data := firstn 5 row in
  st' <- for_enumerate (process_sample row_num row basic_data) 0 sample_ids st ;;
  Ok (count_row st').

(** Lines 253-263: the rows left in the batch. *)
Definition final_flush (st : loader) : result loader :=
  match batch st with
  | [] => Ok st
  | _ :: _ =>
      try_except
        (rows <- executemany_commit (attempts st) (db st) (batch st) ;;
         Ok (mkLoader (batch st) rows (total_rows st) (total_variants st)
               (S (attempts st)) (stdout st)))
        is_sqlite3_Error
        (Ok (mkLoader (batch st) (db st) (total_rows st) (total_variants st)
               (S (attempts st)) (stdout st ++ [SQLite_error_final_batch])%list))
  end.

Definition initial (conn : table) : loader := mkLoader [] conn 0 0 0 [].

(** Lines 146-163 and 165-234: the loop over the rows of the file. *)
Definition stream_rows (header : list string) (rows : list (list string))
  (conn : table) : result loader :=
  let sample_ids := skipn 5 header in
  for_enumerate (process_row sample_ids) 1 rows (initial conn).

(** [transform_and_load_data], on the header and the data rows of
    [input_csv] and the table found in [output_db]. *)
Definition transform_and_load_data (header : list string)
  (rows : list (list string)) (output_db : option table) : result loader :=
  st <- stream_rows header rows (create_database output_db) ;;
  final_flush st.

(** ** What the specification calls these things *)

(** A cell that carries no observation: empty, one of the two sentinels, or
    not five colon-separated parts. *)
Definition absent_cell (cell : string) : Prop :=
  cell = "" \/ cell = "0:0:0:0:0" \/ cell = ".:.:.:.:."
  \/ List.length (split ":" cell) <> 5.

(** A text that passes the digit test and that [int] rejects all the same. *)
Definition int_rejects (x : string) : bool :=
  isdigit x && negb (decimal x && within_digit_limit x).

(** The value of one quality sub-field taken on its own. *)
Definition quality_field (x : string) : option Z :=
  if isdigit x then Some (decimal_value 0 x) else None.

(** The test of line 176. *)
Definition sentinel_or_empty (cell : string) : bool :=
  negb (truthy cell)
  || String.eqb cell "0:0:0:0:0" || String.eqb cell ".:.:.:.:.".

(** ** Views of the loop used in the proofs *)

(** What a sample of a row comes to: nothing, a record that could not be
    built, or a record. *)
Inductive outcome : Type :=
| Skipped
| Failed
| Emitted (r : variant).

Definition sample_outcome (row basic_data : list string) (i : nat)
  (sample_id : string) : outcome :=
  match nth_error row (i + 5) with
  | None => Skipped
  | Some cell =>
      match parse_cell cell with
      | Ok (Some c) =>
          match make_record sample_id basic_data c with
          | Ok r => Emitted r
          | Raise _ => Failed
          end
      | _ => Skipped
      end
  end.

(** The cell of sample [i] is in the row and carries an observation. *)
Definition well_formed_at (row : list string) (i : nat) : Prop :=
  exists cell, nth_error row (i + 5) = Some cell /\ ~ absent_cell cell.

(** Lines 201-232 for one record: into the batch, counted, and the batch
    written when it is full. *)
Definition add (r : variant) (st : loader) : result loader :=
  flush_if_full (append r st).

Fixpoint add_all (rs : list variant) (st : loader) : result loader :=
  match rs with
  | [] => Ok st
  | r :: rest => st' <- add r st ;; add_all rest st'
  end.

Definition is_SQLite_error (m : message) : bool :=
  match m with SQLite_error => true | _ => false end.

(** The flushes of the loop that were rolled back so far. *)
Definition failed_flushes (st : loader) : nat :=
  List.length (filter is_SQLite_error (stdout st)).

(** The states the loader is in between two samples ... *)
Inductive at_loop_head (conn : table) : loader -> Prop :=
| head_initial : at_loop_head conn (initial conn)
| head_error st row_num sample_id basic_data :
    at_loop_head conn st ->
    at_loop_head conn
      (print (Error_processing_row row_num sample_id basic_data) st)
| head_count_row st : at_loop_head conn st -> at_loop_head conn (count_row st)
| head_add st r st' :
    at_loop_head conn st -> add r st = Ok st' -> at_loop_head conn st'.

(** ... and those between the append and the test of the batch. *)
Inductive reachable (conn : table) : loader -> Prop :=
| reach_head st : at_loop_head conn st -> reachable conn st
| reach_append st r : at_loop_head conn st -> reachable conn (append r st).

(** The key of the record is in the table, or the record is in the batch. *)
Definition covered (st : loader) (r : variant) : Prop :=
  has_key (db st) (primary_key r) = true \/ In r (batch st).

(** The table is [tbl] and holds the key of every record of the batch. *)
Definition settled (tbl : table) (st : loader) : Prop :=
  db st = tbl /\ forall r, In r (batch st) -> has_key tbl (primary_key r) = true.

(** The key of every record the input gives rise to is in [tbl]. *)
Definition holds_input (tbl : table) (header : list string)
  (rows : list (list string)) : Prop :=
  forall row i sample_id r,
    In row rows -> nth_error (skipn 5 header) i = Some sample_id ->
    sample_outcome row (firstn 5 row) i sample_id = Emitted r ->
    has_key tbl (primary_key r) = true.

(** ** The observations of an input, in the order the loops meet them *)

(** The records of the samples [ids] of one row, numbered from [start]. *)
Fixpoint emitted_from (row basic_data : list string) (start : nat)
  (ids : list string) : list variant :=
  match ids with
  | [] => []
  | sample_id :: rest =>
      match sample_outcome row basic_data start sample_id with
      | Emitted r => r :: emitted_from row basic_data (S start) rest
      | _ => emitted_from row basic_data (S start) rest
      end
  end.

Definition row_records (sample_ids : list string) (row : list string)
  : list variant :=
  emitted_from row (firstn 5 row) 0 sample_ids.

Definition all_records (header : list string) (rows : list (list string))
  : list variant :=
  flat_map (row_records (skipn 5 header)) rows.

(** The loader has built the records [recs], counted them, committed a first
    part of them to the table that was [conn], and holds the rest in the
    batch. *)
Definition tracks (conn : table) (recs : list variant) (st : loader) : Prop :=
  total_variants st = List.length recs
  /\ exists done, recs = (done ++ batch st)%list
       /\ db st = executemany conn done.

(** The position a POS cell stands for: its value, or 0 when it fails the
    digit test. *)
Definition position_value (pos_cell : string) : Z :=
  if isdigit pos_cell then decimal_value 0 pos_cell else 0%Z.

(** No two rows of the table have the same primary key. *)
Definition keys_unique (tbl : table) : Prop := NoDup (map primary_key tbl).

(** ** The column labels in [transform_tsv_to_csv] (lines 63-82) *)

(** [s.replace(c, '')] for a one-character [c] *)
Fixpoint remove_char (c : ascii) (s : string) : string :=
  match s with
  | EmptyString => EmptyString
  | String a rest =>
      if Ascii.eqb a c then remove_char c rest
      else String a (remove_char c rest)
  end.

(** [s.split(sep)[0]] *)
Definition first_part (sep : ascii) (s : string) : result string :=
  getitem (split sep s) 0.

(** [df.rename(columns={df.columns[0]: "CHROM"})], on the labels *)
Definition rename_first (columns : list string) : result (list string) :=
  old <- getitem columns 0 ;;
  Ok (map (fun c => if String.eqb c old then "CHROM" else c) columns).

(** [df.drop(labels, axis=1)], on the labels: every column that bears one of
    [labels] goes. *)
Definition drop (labels columns : list string) : list string :=
  filter (fun c => negb (existsb (String.eqb c) labels)) columns.

(** [for x in xs: out.append(f(x))] for an [f] that may raise *)
Fixpoint for_each {A B : Type} (f : A -> result B) (xs : list A)
  : result (list B) :=
  match xs with
  | [] => Ok []
  | x :: rest => y <- f x ;; ys <- for_each f rest ;; Ok (y :: ys)
  end.

(** Steps 1, 2, 4 and 5 of [transform_tsv_to_csv] on [df.columns], the
    labels of the frame as [read_csv] gives them; the result is the header
    of the file the function writes. *)
Definition transform_columns (columns : list string) : result (list string) :=
  renamed <- rename_first columns ;;
  let kept := drop (firstn 4 (skipn 5 renamed)) renamed in
  parts <- for_each (first_part "_") (skipn 5 kept) ;;
  let step4 := (firstn 5 kept ++ parts)%list in
  Ok (firstn 5 step4 ++ map (remove_char "X") (skipn 5 step4))%list.

(** The character occurs in the text. *)
Fixpoint has_char (c : ascii) (s : string) : bool :=
  match s with
  | EmptyString => false
  | String a rest => Ascii.eqb a c || has_char c rest
  end.

(** A sample label after steps 4 and 5: up to the first '_', without 'X'. *)
Definition clean_label (s : string) : string :=
  match split "_" s with
  | p :: _ => remove_char "X" p
  | [] => remove_char "X" s
  end.

(** ** Worked inputs *)

(** The text of [n] characters '0'. *)
Fixpoint zeros (n : nat) : string :=
  match n with
  | O => EmptyString
  | S m => String "0" (zeros m)
  end.

(** The one-character text U+00B2. *)
Definition superscript_two : string := String (ascii_of_nat 178) EmptyString.

Definition header_S1 : list string := ["CHROM"; "POS"; "ID"; "REF"; "ALT"; "S1"].

Definition header_S1_S2 : list string :=
  ["CHROM"; "POS"; "ID"; "REF"; "ALT"; "S1"; "S2"].

Definition row_S1 : list string :=
  ["1"; "100"; "rs1"; "A"; "G"; "0/1:10,5:30:90:10,0,30"].

Definition row_S1_S2 : list string :=
  ["1"; "100"; "rs1"; "A"; "G"; "0/1:10,5:30:90:10,0,30"; "1/1:0,9:9:27:99,27,0"].

Definition row_superscript : list string :=
  ["1"; superscript_two; "rs1"; "A"; "G"; "0/1:10,5:30:90:10,0,30"].

Definition record_S1 : variant :=
  mkVariant "S1" "1" 100 "rs1" "A" "G" "0/1" "10,5" (Some 30%Z) (Some 90%Z) "10,0,30".

Definition record_S2 : variant :=
  mkVariant "S2" "1" 100 "rs1" "A" "G" "1/1" "0,9" (Some 9%Z) (Some 27%Z) "99,27,0".

Definition row_S1_S2_next : list string :=
  ["1"; "200"; "rs2"; "C"; "T"; "0/0:12,0:12:36:0,36,99"; "0/1:4,4:8:60:60,0,60"].

Definition record_S1_next : variant :=
  mkVariant "S1" "1" 200 "rs2" "C" "T" "0/0" "12,0" (Some 12%Z) (Some 36%Z) "0,36,99".

Definition record_S2_next : variant :=
  mkVariant "S2" "1" 200 "rs2" "C" "T" "0/1" "4,4" (Some 8%Z) (Some 60%Z) "60,0,60".

(** Two rows whose POS cells are not numbers. *)
Definition row_no_position : list string :=
  ["1"; "."; "rs3"; "A"; "G"; "0/1:10,5:30:90:10,0,30"].

Definition row_no_position_next : list string :=
  ["1"; "NA"; "rs4"; "C"; "T"; "0/0:12,0:12:36:0,36,99"].

Definition record_no_position : variant :=
  mkVariant "S1" "1" 0 "rs3" "A" "G" "0/1" "10,5" (Some 30%Z) (Some 90%Z) "10,0,30".

Definition record_no_position_next : variant :=
  mkVariant "S1" "1" 0 "rs4" "C" "T" "0/0" "12,0" (Some 12%Z) (Some 36%Z) "0,36,99".

(** The labels of a merged VCF table with two samples. *)
Definition vcf_columns : list string :=
  ["#CHROM"; "POS"; "ID"; "REF"; "ALT"; "QUAL"; "FILTER"; "INFO"; "FORMAT";
   "XS1_L001"; "S2_L001_R1"].

Definition store_accepts (_ : nat) : bool := false.

Definition store_refuses (_ : nat) : bool := true.

Definition store_refuses_first (n : nat) : bool := n =? 0.

(** ** Facts about the built-ins *)

Lemma truthy_false_iff (s : string) : negb (truthy s) = true <-> s = "".
Proof.
  destruct s; simpl; split; intro H; try reflexivity; discriminate.
Qed.

Lemma split_not_nil (sep : ascii) (s : string) : split sep s <> [].
Proof.
  induction s as [|c rest IH]; simpl.
  - discriminate.
  - destruct (Ascii.eqb c sep); [discriminate|].
    destruct (split sep rest); discriminate.
Qed.

Lemma decimal_char_is_digit (c : ascii) :
  isdecimal_char c = true -> isdigit_char c = true.
Proof.
  unfold isdigit_char. intros ->. reflexivity.
Qed.

Lemma decimal_is_digit (s : string) : decimal s = true -> isdigit s = true.
Proof.
  unfold decimal, isdigit. intros H.
  apply andb_true_iff in H as [Ht Ha]. rewrite Ht. simpl.
  clear Ht. induction s as [|c rest IH]; simpl in *; [reflexivity|].
  apply andb_true_iff in Ha as [Hc Hr].
  rewrite (decimal_char_is_digit _ Hc), (IH Hr). reflexivity.
Qed.

Lemma digit_value_nonneg (c : ascii) : (0 <= digit_value c)%Z.
Proof. unfold digit_value. apply Nat2Z.is_nonneg. Qed.

Lemma decimal_value_nonneg (s : string) (acc : Z) :
  (0 <= acc)%Z -> (0 <= decimal_value acc s)%Z.
Proof.
  revert acc. induction s as [|c rest IH]; cbn [decimal_value]; intros acc Hacc.
  - exact Hacc.
  - apply IH. pose proof (digit_value_nonneg c). lia.
Qed.

Lemma py_int_Ok (x : string) (n : Z) :
  py_int x = Ok n ->
  decimal x = true /\ within_digit_limit x = true /\ n = decimal_value 0 x.
Proof.
  unfold py_int.
  destruct (decimal x) eqn:Hd; destruct (within_digit_limit x) eqn:Hl; simpl;
    intros H; try discriminate.
  injection H as <-. auto.
Qed.

Lemma py_int_raises (x : string) (e : exn) : py_int x = Raise e -> e = ValueError.
Proof.
  unfold py_int. destruct (decimal x && within_digit_limit x); intros H.
  - discriminate.
  - injection H as <-. reflexivity.
Qed.

(** The conversion of one sub-field: its own value unless [int] rejects it. *)
Lemma int_or_None_cases (x : string) :
  (int_rejects x = false /\ int_or_None x = Ok (quality_field x))
  \/ (int_rejects x = true /\ int_or_None x = Raise ValueError).
Proof.
  unfold int_or_None, int_rejects, quality_field, py_int.
  destruct (isdigit x) eqn:Hd.
  - assert (Ht : truthy x = true).
    { unfold isdigit in Hd. apply andb_true_iff in Hd. exact (proj1 Hd). }
    rewrite Ht. simpl.
    destruct (decimal x && within_digit_limit x); simpl; auto.
  - rewrite andb_false_r. simpl. auto.
Qed.

Lemma convert_depth_quality_independent (d q : string) :
  int_rejects d = false -> int_rejects q = false ->
  convert_depth_quality d q = Ok (quality_field d, quality_field q).
Proof.
  intros Hd Hq. unfold convert_depth_quality.
  destruct (int_or_None_cases d) as [[_ ->]|[H _]]; [|congruence].
  destruct (int_or_None_cases q) as [[_ ->]|[H _]]; [|congruence].
  reflexivity.
Qed.

Lemma convert_depth_quality_reset (d q : string) :
  int_rejects d = true \/ int_rejects q = true ->
  convert_depth_quality d q = Ok (None, None).
Proof.
  intros H. unfold convert_depth_quality.
  destruct (int_or_None_cases d) as [[Hd ->]|[_ ->]]; [|reflexivity].
  destruct (int_or_None_cases q) as [[Hq ->]|[_ ->]]; [|reflexivity].
  destruct H; congruence.
Qed.

Lemma convert_depth_quality_total (d q : string) :
  exists p, convert_depth_quality d q = Ok p.
Proof.
  destruct (int_rejects d) eqn:Hd.
  - eexists. apply convert_depth_quality_reset. auto.
  - destruct (int_rejects q) eqn:Hq.
    + eexists. apply convert_depth_quality_reset. auto.
    + eexists. apply convert_depth_quality_independent; assumption.
Qed.

(** ** Facts about [parse_cell] *)

Lemma sentinel_or_empty_iff (cell : string) :
  sentinel_or_empty cell = true
  <-> cell = "" \/ cell = "0:0:0:0:0" \/ cell = ".:.:.:.:.".
Proof.
  unfold sentinel_or_empty.
  rewrite !orb_true_iff, truthy_false_iff, !String.eqb_eq. apply or_assoc.
Qed.

(** A cell of five parts that is no sentinel parses to its parts. *)
Lemma parse_cell_five (cell g a d q p : string) :
  sentinel_or_empty cell = false ->
  split ":" cell = [g; a; d; q; p] ->
  exists conv, convert_depth_quality d q = Ok conv
    /\ parse_cell cell = Ok (Some (mkSampleCell g a (fst conv) (snd conv) p)).
Proof.
  intros Hs Hsplit.
  destruct (convert_depth_quality_total d q) as [conv Hconv].
  exists conv. split; [exact Hconv|].
  unfold parse_cell. fold (sentinel_or_empty cell). rewrite Hs, Hsplit.
  simpl. rewrite Hconv. reflexivity.
Qed.

Lemma length_five {A : Type} (xs : list A) :
  List.length xs = 5 -> exists a b c d e, xs = [a; b; c; d; e].
Proof.
  destruct xs as [|a [|b [|c [|d [|e [|f xs]]]]]]; simpl; intros H;
    try discriminate.
  exists a, b, c, d, e. reflexivity.
Qed.

Lemma parse_cell_None_iff (cell : string) :
  parse_cell cell = Ok None <-> absent_cell cell.
Proof.
  unfold absent_cell. rewrite <- !or_assoc, (or_assoc (cell = "")).
  rewrite <- sentinel_or_empty_iff.
  destruct (sentinel_or_empty cell) eqn:Hs.
  - split; [auto|]. intros _. unfold parse_cell.
    fold (sentinel_or_empty cell). rewrite Hs. reflexivity.
  - destruct (Nat.eq_dec (List.length (split ":" cell)) 5) as [H5|H5].
    + destruct (length_five _ H5) as (g & a & d & q & p & Hsplit).
      destruct (parse_cell_five _ _ _ _ _ _ Hs Hsplit) as (conv & _ & ->).
      split; [discriminate|]. intros [H|H]; [discriminate|contradiction].
    + split; [auto|]. intros _. unfold parse_cell.
      fold (sentinel_or_empty cell). rewrite Hs.
      apply Nat.eqb_neq in H5. rewrite H5. reflexivity.
Qed.

Lemma parse_cell_total (cell : string) : exists r, parse_cell cell = Ok r.
Proof.
  destruct (sentinel_or_empty cell) eqn:Hs.
  - exists None. apply parse_cell_None_iff.
    apply sentinel_or_empty_iff in Hs. unfold absent_cell.
    destruct Hs as [H|[H|H]]; auto.
  - destruct (Nat.eq_dec (List.length (split ":" cell)) 5) as [H5|H5].
    + destruct (length_five _ H5) as (g & a & d & q & p & Hsplit).
      destruct (parse_cell_five _ _ _ _ _ _ Hs Hsplit) as (conv & _ & H).
      eexists. exact H.
    + exists None. apply parse_cell_None_iff. unfold absent_cell.
      right; right; right. exact H5.
Qed.

(** ** Facts about the loops *)

Lemma bind_Ok_r {A : Type} (c : result A) : (x <- c ;; Ok x) = c.
Proof. destruct c; reflexivity. Qed.

Lemma for_enumerate_app {A St : Type} (body : St -> nat -> A -> result St)
  (xs ys : list A) (start : nat) (st : St) :
  for_enumerate body start (xs ++ ys)%list st =
  (st' <- for_enumerate body start xs st ;;
   for_enumerate body (start + List.length xs) ys st').
Proof.
  revert start st. induction xs as [|x xs IH]; intros start st; simpl.
  - rewrite Nat.add_0_r. reflexivity.
  - destruct (body st start x) as [st1|e]; simpl; [|reflexivity].
    rewrite IH. replace (S start + List.length xs) with (start + S (List.length xs)) by lia.
    reflexivity.
Qed.

(** A loop all of whose iterations leave the state alone. *)
Lemma for_enumerate_skip {A St : Type} (body : St -> nat -> A -> result St)
  (xs : list A) (start : nat) (st : St) :
  (forall i x, start <= i -> body st i x = Ok st) ->
  for_enumerate body start xs st = Ok st.
Proof.
  revert start. induction xs as [|x xs IH]; intros start H; simpl.
  - reflexivity.
  - rewrite H by lia. simpl. apply IH. intros i y Hi. apply H. lia.
Qed.

(** A loop with an invariant that every iteration carries one step on. *)
Lemma for_enumerate_inv {A St : Type} (body : St -> nat -> A -> result St)
  (P : nat -> St -> Prop) (xs : list A) (start : nat) (st : St) :
  P 0 st ->
  (forall k x s, nth_error xs k = Some x -> P k s ->
     exists s', body s (start + k) x = Ok s' /\ P (S k) s') ->
  exists s', for_enumerate body start xs st = Ok s' /\ P (List.length xs) s'.
Proof.
  revert P start st. induction xs as [|x xs IH]; intros P start st H0 Hstep.
  - exists st. split; [reflexivity|exact H0].
  - destruct (Hstep 0 x st eq_refl H0) as (s1 & Hb & H1).
    rewrite Nat.add_0_r in Hb. simpl. rewrite Hb. simpl.
    apply (IH (fun k => P (S k)) (S start) s1 H1).
    intros k y s Hk HP.
    destruct (Hstep (S k) y s Hk HP) as (s' & Hs' & HP').
    exists s'. split; [|exact HP'].
    replace (S start + k) with (start + S k) by lia. exact Hs'.
Qed.

(** ** One sample of one row *)

Lemma process_sample_outcome (row_num : nat) (row basic_data : list string)
  (st : loader) (i : nat) (sample_id : string) :
  process_sample row_num row basic_data st i sample_id =
  match sample_outcome row basic_data i sample_id with
  | Skipped => Ok st
  | Failed => Ok (print (Error_processing_row row_num sample_id basic_data) st)
  | Emitted r => flush_if_full (append r st)
  end.
Proof.
  unfold process_sample, sample_outcome, getitem.
  destruct (Nat.leb_spec (List.length row) (i + 5)) as [Hlen|Hlen].
  - apply nth_error_None in Hlen. rewrite Hlen. reflexivity.
  - destruct (nth_error row (i + 5)) as [cell|] eqn:Hcell.
    + simpl. destruct (parse_cell_total cell) as [[c|] ->]; simpl; [|reflexivity].
      destruct (make_record sample_id basic_data c); reflexivity.
    + apply nth_error_None in Hcell. lia.
Qed.

Lemma flush_if_full_cases (st : loader) :
  flush_if_full st = Ok st
  \/ flush_if_full st =
       Ok (mkLoader [] (executemany (db st) (batch st)) (total_rows st)
             (total_variants st) (S (attempts st)) (stdout st))
  \/ flush_if_full st =
       Ok (mkLoader (batch st) (db st) (total_rows st) (total_variants st)
             (S (attempts st)) (stdout st ++ [SQLite_error])%list).
Proof.
  unfold flush_if_full, executemany_commit.
  destruct (batch_size <=? Z.of_nat (List.length (batch st)))%Z; [|auto].
  destruct (sqlite_fails (attempts st)); simpl; auto.
Qed.

Lemma flush_if_full_total (st : loader) : exists st', flush_if_full st = Ok st'.
Proof.
  destruct (flush_if_full_cases st) as [H|[H|H]]; rewrite H; eexists; reflexivity.
Qed.

Lemma process_sample_total (row_num : nat) (row basic_data : list string)
  (st : loader) (i : nat) (sample_id : string) :
  exists st', process_sample row_num row basic_data st i sample_id = Ok st'.
Proof.
  rewrite process_sample_outcome.
  destruct (sample_outcome row basic_data i sample_id).
  - eexists; reflexivity.
  - eexists; reflexivity.
  - apply flush_if_full_total.
Qed.

Lemma process_sample_out_of_range (row_num : nat) (row basic_data : list string)
  (st : loader) (i : nat) (sample_id : string) :
  List.length row <= i + 5 ->
  process_sample row_num row basic_data st i sample_id = Ok st.
Proof.
  intros H. rewrite process_sample_outcome. unfold sample_outcome.
  apply nth_error_None in H. rewrite H. reflexivity.
Qed.

Lemma process_sample_absent (row_num : nat) (row basic_data : list string)
  (st : loader) (i : nat) (sample_id cell : string) :
  nth_error row (i + 5) = Some cell -> absent_cell cell ->
  process_sample row_num row basic_data st i sample_id = Ok st.
Proof.
  intros Hcell Habs. rewrite process_sample_outcome. unfold sample_outcome.
  rewrite Hcell. apply parse_cell_None_iff in Habs. rewrite Habs. reflexivity.
Qed.

Lemma process_row_total (sample_ids : list string) (st : loader) (row_num : nat)
  (row : list string) :
  exists st', process_row sample_ids st row_num row = Ok st'.
Proof.
  unfold process_row.
  destruct (for_enumerate_inv (process_sample row_num row (firstn 5 row))
              (fun _ _ => True) sample_ids 0 st I) as (s' & Hs' & _).
  - intros k x s _ _.
    destruct (process_sample_total row_num row (firstn 5 row) s (0 + k) x) as [s1 H1].
    exists s1. auto.
  - rewrite Hs'. simpl. eexists; reflexivity.
Qed.

(** ** The genotype-field parse *)

(** C1. The parse of a cell yields no observation exactly when the cell is
    empty, is the all-zero sentinel, is the all-missing sentinel, or does not
    split on ':' into five parts.  The parse raises nothing, and a sample
    whose cell is of that kind leaves the state of the loader as it was: no
    record, no count, no message. *)
Theorem parse_cell_absent_exactly (cell : string) :
  (parse_cell cell = Ok None <-> absent_cell cell)
  /\ (exists parsed, parse_cell cell = Ok parsed)
  /\ (absent_cell cell ->
      forall row_num row st i sample_id,
        nth_error row (i + 5) = Some cell ->
        process_sample row_num row (firstn 5 row) st i sample_id = Ok st).
Proof.
  split; [apply parse_cell_None_iff|].
  split; [apply parse_cell_total|].
  intros Habs row_num row st i sample_id Hcell.
  eapply process_sample_absent; eassumption.
Qed.

Lemma quality_field_Some (x : string) (n : Z) :
  int_rejects x = false -> quality_field x = Some n ->
  decimal x = true /\ n = decimal_value 0 x /\ (0 <= n)%Z.
Proof.
  unfold int_rejects, quality_field. intros Hrej Hq.
  destruct (isdigit x); [|discriminate].
  injection Hq as <-. simpl in Hrej. apply negb_false_iff in Hrej.
  apply andb_true_iff in Hrej as [Hd _].
  repeat split; [exact Hd|]. apply decimal_value_nonneg. lia.
Qed.

(** C2, as the code has it.  A cell of five parts that is no sentinel parses
    to a record whose genotype, allele depth and likelihoods are the first,
    second and fifth part as they stand.  A depth or quality that is stored
    is the value of a part made of the digits '0' to '9'.  The third and the
    fourth part are converted each on its own: a part that fails the digit
    test gives null and leaves the other as it is.  Both are null together
    only when one of them passes the digit test and [int] rejects it. *)
Theorem parse_cell_quality_fields (cell g a d q p : string) :
  sentinel_or_empty cell = false ->
  split ":" cell = [g; a; d; q; p] ->
  exists c, parse_cell cell = Ok (Some c)
    /\ gt c = g /\ ad c = a /\ pl c = p
    /\ (forall n, dp c = Some n ->
          decimal d = true /\ n = decimal_value 0 d /\ (0 <= n)%Z)
    /\ (forall n, gq c = Some n ->
          decimal q = true /\ n = decimal_value 0 q /\ (0 <= n)%Z)
    /\ (int_rejects d = false -> int_rejects q = false ->
          dp c = quality_field d /\ gq c = quality_field q)
    /\ (int_rejects d = true \/ int_rejects q = true ->
          dp c = None /\ gq c = None).
Proof.
  intros Hs Hsplit.
  destruct (parse_cell_five _ _ _ _ _ _ Hs Hsplit) as (conv & Hconv & Hparse).
  exists (mkSampleCell g a (fst conv) (snd conv) p).
  split; [exact Hparse|]. cbn [gt ad dp gq pl].
  do 3 (split; [reflexivity|]).
  destruct (int_rejects d) eqn:Hd; [|destruct (int_rejects q) eqn:Hq].
  - rewrite convert_depth_quality_reset in Hconv by (left; exact Hd).
    injection Hconv as <-. cbn [fst snd].
    split; [intros n H; discriminate|]. split; [intros n H; discriminate|].
    split; [intros H; discriminate|]. intros _. split; reflexivity.
  - rewrite convert_depth_quality_reset in Hconv by (right; exact Hq).
    injection Hconv as <-. cbn [fst snd].
    split; [intros n H; discriminate|]. split; [intros n H; discriminate|].
    split; [intros _ H; discriminate|]. intros _. split; reflexivity.
  - rewrite convert_depth_quality_independent in Hconv by assumption.
    injection Hconv as <-. cbn [fst snd].
    split; [intros n Hn; apply quality_field_Some; assumption|].
    split; [intros n Hn; apply quality_field_Some; assumption|].
    split; [intros _ _; split; reflexivity|].
    intros [H|H]; discriminate.
Qed.

(** ** The offsets of the samples *)

Lemma process_row_short (sample_ids : list string) (st : loader) (row_num : nat)
  (row : list string) :
  process_row sample_ids st row_num row =
  process_row (firstn (List.length row - 5) sample_ids) st row_num row.
Proof.
  set (k := List.length row - 5).
  destruct (Nat.le_gt_cases k (List.length sample_ids)) as [Hk|Hk].
  - unfold process_row.
    rewrite <- (firstn_skipn k sample_ids) at 1.
    rewrite for_enumerate_app.
    destruct (for_enumerate _ 0 (firstn k sample_ids) st) as [st1|e]; simpl;
      [|reflexivity].
    rewrite for_enumerate_skip; [reflexivity|].
    intros i x Hi. apply process_sample_out_of_range.
    rewrite length_firstn in Hi. unfold k in *. lia.
  - rewrite firstn_all2 by lia. reflexivity.
Qed.

(** C6. The sample of index [i] is read at offset [5 + i] of the row: what
    the sample comes to depends on the row through its first five cells and
    that cell alone.  When the offset is not within the row the sample is
    skipped, the state untouched and nothing raised; so a row is processed
    as if the header had only the samples whose offsets the row has. *)
Theorem short_row_tolerance (sample_ids : list string) (st : loader)
  (row_num : nat) (row : list string) :
  (forall i sample_id, List.length row <= i + 5 ->
     process_sample row_num row (firstn 5 row) st i sample_id = Ok st)
  /\ (forall i sample_id row',
        firstn 5 row' = firstn 5 row ->
        nth_error row' (i + 5) = nth_error row (i + 5) ->
        process_sample row_num row' (firstn 5 row') st i sample_id =
        process_sample row_num row (firstn 5 row) st i sample_id)
  /\ process_row sample_ids st row_num row =
     process_row (firstn (List.length row - 5) sample_ids) st row_num row.
Proof.
  split; [|split].
  - intros i sample_id H. apply process_sample_out_of_range. exact H.
  - intros i sample_id row' H5 Hcell.
    rewrite !process_sample_outcome. unfold sample_outcome.
    rewrite H5, Hcell. reflexivity.
  - apply process_row_short.
Qed.

(** C10. A row of fewer than five cells is processed without an exception:
    every sample fails the offset test and leaves the state alone, so nothing
    is added to the batch, counted as an observation or printed, and the row
    is counted in [total_rows]. *)
Theorem short_row_is_counted (sample_ids : list string) (st : loader)
  (row_num : nat) (row : list string) :
  List.length row < 5 ->
  (forall i sample_id,
     process_sample row_num row (firstn 5 row) st i sample_id = Ok st)
  /\ exists st', process_row sample_ids st row_num row = Ok st'
       /\ st' = count_row st
       /\ total_rows st' = S (total_rows st)
       /\ total_variants st' = total_variants st
       /\ batch st' = batch st
       /\ db st' = db st
       /\ stdout st' = stdout st.
Proof.
  intros Hlen. split.
  - intros i sample_id. apply process_sample_out_of_range. lia.
  - exists (count_row st). split; [|repeat split].
    unfold process_row. rewrite for_enumerate_skip; [reflexivity|].
    intros i x _. apply process_sample_out_of_range. lia.
Qed.

(** ** The position *)

Lemma make_record_five (sample_id chrom pos_cell id ref alt : string)
  (c : SampleCell) :
  make_record sample_id [chrom; pos_cell; id; ref; alt] c =
  (pos_value <- (if isdigit pos_cell then py_int pos_cell else Ok 0%Z) ;;
   Ok (mkVariant sample_id chrom pos_value id ref alt
         (gt c) (ad c) (dp c) (gq c) (pl c))).
Proof.
  unfold make_record, getitem. simpl.
  destruct (if isdigit pos_cell then py_int pos_cell else Ok 0%Z); reflexivity.
Qed.

(** What line 200 does with the POS cell.  A record that is built has a
    non-negative position: the value of the POS cell when the cell is made
    of the digits '0' to '9' (and [int] takes its length), and 0 when the
    cell fails the digit test.  The guard of line 200 lets through a POS
    cell that passes the digit test and that [int] rejects: there the
    record fails, and a sample of that row is either skipped or reported on
    the output, with nothing added to the batch. *)
Theorem stored_position (sample_id chrom pos_cell id ref alt : string)
  (basic_data : list string) (c : SampleCell) :
  basic_data = [chrom; pos_cell; id; ref; alt] ->
  (forall r, make_record sample_id basic_data c = Ok r -> (0 <= POS r)%Z)
  /\ (decimal pos_cell = true -> within_digit_limit pos_cell = true ->
      exists r, make_record sample_id basic_data c = Ok r
        /\ POS r = decimal_value 0 pos_cell)
  /\ (isdigit pos_cell = false ->
      exists r, make_record sample_id basic_data c = Ok r /\ POS r = 0%Z)
  /\ (int_rejects pos_cell = true ->
      make_record sample_id basic_data c = Raise ValueError
      /\ forall row_num row st i,
           firstn 5 row = basic_data ->
           process_sample row_num row basic_data st i sample_id = Ok st
           \/ process_sample row_num row basic_data st i sample_id =
              Ok (print (Error_processing_row row_num sample_id basic_data) st)).
Proof.
  intros ->.
  assert (Hrej : forall c', int_rejects pos_cell = true ->
            make_record sample_id [chrom; pos_cell; id; ref; alt] c' = Raise ValueError).
  { intros c' H. rewrite make_record_five. unfold int_rejects in H.
    apply andb_true_iff in H as [Hd Hn]. rewrite Hd. unfold py_int.
    apply negb_true_iff in Hn. rewrite Hn. reflexivity. }
  split; [|split; [|split]].
  - intros r. rewrite make_record_five.
    destruct (isdigit pos_cell).
    + destruct (py_int pos_cell) as [n|e] eqn:Hint; simpl; [|discriminate].
      intros H. injection H as <-. simpl.
      apply py_int_Ok in Hint as (_ & _ & ->).
      apply decimal_value_nonneg. lia.
    + simpl. intros H. injection H as <-. simpl. lia.
  - intros Hd Hl. rewrite make_record_five.
    rewrite (decimal_is_digit _ Hd). unfold py_int. rewrite Hd, Hl. simpl.
    eexists. split; reflexivity.
  - intros Hd. rewrite make_record_five, Hd. simpl.
    eexists. split; reflexivity.
  - intros H. split; [apply Hrej; exact H|].
    intros row_num row st i _. rewrite process_sample_outcome.
    unfold sample_outcome.
    destruct (nth_error row (i + 5)) as [cell|]; [|auto].
    destruct (parse_cell cell) as [[c'|]|]; auto.
    rewrite (Hrej c' H). auto.
Qed.

(** ** Counting the observations *)

Lemma flush_if_full_counters (st st' : loader) :
  flush_if_full st = Ok st' ->
  total_variants st' = total_variants st /\ total_rows st' = total_rows st.
Proof.
  destruct (flush_if_full_cases st) as [H|[H|H]]; rewrite H; intros E;
    injection E as <-; simpl; auto.
Qed.

Lemma sample_outcome_Emitted (row basic_data : list string) (i : nat)
  (sample_id : string) (r : variant) :
  sample_outcome row basic_data i sample_id = Emitted r -> well_formed_at row i.
Proof.
  unfold sample_outcome, well_formed_at.
  destruct (nth_error row (i + 5)) as [cell|]; [|discriminate].
  destruct (parse_cell cell) as [[c|]|] eqn:Hp; try discriminate.
  intros _. exists cell. split; [reflexivity|].
  intros Habs. apply parse_cell_None_iff in Habs. congruence.
Qed.

(** One sample adds at most one to the count, and adds one only for a cell
    that is present and carries an observation; the count of rows stays. *)
Lemma process_sample_count (row_num : nat) (row basic_data : list string)
  (st st' : loader) (i : nat) (sample_id : string) :
  process_sample row_num row basic_data st i sample_id = Ok st' ->
  total_rows st' = total_rows st
  /\ (total_variants st' = total_variants st
      \/ (total_variants st' = S (total_variants st) /\ well_formed_at row i)).
Proof.
  rewrite process_sample_outcome.
  destruct (sample_outcome row basic_data i sample_id) as [| |r] eqn:Ho.
  - intros E. injection E as <-. auto.
  - intros E. injection E as <-. simpl. auto.
  - intros E. apply flush_if_full_counters in E as [Hv Hr].
    simpl in Hv, Hr. split; [exact Hr|]. right. split; [exact Hv|].
    eapply sample_outcome_Emitted. exact Ho.
Qed.

Lemma process_row_count (sample_ids : list string) (st : loader)
  (row_num : nat) (row : list string) :
  exists st', process_row sample_ids st row_num row = Ok st'
    /\ total_rows st' = S (total_rows st)
    /\ total_variants st' <= total_variants st + List.length sample_ids
    /\ (total_variants st' = total_variants st + List.length sample_ids ->
        forall i, i < List.length sample_ids -> well_formed_at row i).
Proof.
  unfold process_row.
  destruct (for_enumerate_inv (process_sample row_num row (firstn 5 row))
    (fun k s => total_rows s = total_rows st
                /\ total_variants s <= total_variants st + k
                /\ (total_variants s = total_variants st + k ->
                    forall i, i < k -> well_formed_at row i))
    sample_ids 0 st) as (s' & Hs' & Hr & Hle & Heq).
  - split; [reflexivity|]. split; [lia|]. intros _ i Hi. lia.
  - intros k x s _ (Hr & Hle & Heq).
    destruct (process_sample_total row_num row (firstn 5 row) s (0 + k) x) as [s1 H1].
    exists s1. split; [exact H1|].
    apply process_sample_count in H1 as [Hr1 Hv1]. simpl in Hv1.
    split; [congruence|].
    destruct Hv1 as [Hv1|[Hv1 Hwf]].
    + split; [lia|]. intros E. lia.
    + split; [lia|]. intros E i Hi.
      destruct (Nat.eq_dec i k) as [->|Hne]; [exact Hwf|].
      apply Heq; lia.
  - rewrite Hs'. simpl. eexists. split; [reflexivity|]. simpl.
    split; [congruence|]. split; assumption.
Qed.

Lemma final_flush_cases (st : loader) :
  (batch st = [] /\ final_flush st = Ok st)
  \/ final_flush st =
       Ok (mkLoader (batch st) (executemany (db st) (batch st)) (total_rows st)
             (total_variants st) (S (attempts st)) (stdout st))
  \/ final_flush st =
       Ok (mkLoader (batch st) (db st) (total_rows st) (total_variants st)
             (S (attempts st)) (stdout st ++ [SQLite_error_final_batch])%list).
Proof.
  unfold final_flush, executemany_commit.
  destruct (batch st) eqn:Hb; [auto|]. rewrite <- Hb.
  destruct (sqlite_fails (attempts st)); simpl; auto.
Qed.

Lemma stream_rows_count (header : list string) (rows : list (list string))
  (conn : table) :
  exists st, stream_rows header rows conn = Ok st
    /\ total_rows st = List.length rows
    /\ total_variants st <= List.length rows * List.length (skipn 5 header)
    /\ (total_variants st = List.length rows * List.length (skipn 5 header) ->
        forall k row i, nth_error rows k = Some row ->
          i < List.length (skipn 5 header) -> well_formed_at row i).
Proof.
  unfold stream_rows. set (ids := skipn 5 header).
  destruct (for_enumerate_inv (process_row ids)
    (fun k s => total_rows s = k
                /\ total_variants s <= k * List.length ids
                /\ (total_variants s = k * List.length ids ->
                    forall j row i, j < k -> nth_error rows j = Some row ->
                      i < List.length ids -> well_formed_at row i))
    rows 1 (initial conn)) as (st & Hst & Hr & Hle & Heq).
  - simpl. split; [reflexivity|]. split; [lia|]. intros _ j row i Hj. lia.
  - intros k row s Hrow (Hr & Hle & Heq).
    destruct (process_row_count ids s (1 + k) row) as (s' & Hs' & Hr' & Hle' & Heq').
    exists s'. split; [exact Hs'|]. split; [lia|]. split; [lia|].
    intros E j row' i Hj Hrow' Hi.
    destruct (Nat.eq_dec j k) as [->|Hne].
    + assert (row' = row) by congruence. subst row'. apply Heq'; lia.
    + apply (Heq ltac:(lia) j row' i); [lia|assumption|assumption].
  - exists st. repeat split; try assumption.
    intros E k row i Hk Hi. apply (Heq E k row i); try assumption.
    apply nth_error_Some. congruence.
Qed.

(** C5. A load of R data rows under a header of S sample columns produces at
    most R x S observation records, and produces R x S only when the cell of
    every sample is present in every row and is a five-part cell that is no
    sentinel.  The load returns, with R rows counted. *)
Theorem observation_count_bound (header : list string)
  (rows : list (list string)) (output_db : option table) :
  exists st, transform_and_load_data header rows output_db = Ok st
    /\ total_rows st = List.length rows
    /\ total_variants st <= List.length rows * List.length (skipn 5 header)
    /\ (total_variants st = List.length rows * List.length (skipn 5 header) ->
        forall row i, In row rows -> i < List.length (skipn 5 header) ->
          exists cell, nth_error row (i + 5) = Some cell /\ ~ absent_cell cell).
Proof.
  unfold transform_and_load_data.
  destruct (stream_rows_count header rows (create_database output_db))
    as (st & Hst & Hr & Hle & Heq).
  rewrite Hst. simpl.
  assert (Hf : exists st', final_flush st = Ok st'
                 /\ total_rows st' = total_rows st
                 /\ total_variants st' = total_variants st).
  { destruct (final_flush_cases st) as [[_ H]|[H|H]]; rewrite H; eexists;
      (split; [reflexivity|]); simpl; auto. }
  destruct Hf as (st' & Hst' & Hr' & Hv').
  exists st'. split; [exact Hst'|]. rewrite Hr', Hv'.
  split; [exact Hr|]. split; [exact Hle|].
  intros E row i Hin Hi. apply In_nth_error in Hin as [k Hk].
  exact (Heq E k row i Hk Hi).
Qed.

(** ** The batch *)

Lemma add_below (r : variant) (st : loader) :
  (Z.of_nat (S (List.length (batch st))) < batch_size)%Z ->
  add r st = Ok (append r st).
Proof.
  intros H. unfold add, flush_if_full. simpl. rewrite length_app. simpl.
  destruct (Z.leb_spec batch_size (Z.of_nat (List.length (batch st) + 1)));
    [lia|reflexivity].
Qed.

Lemma add_full (r : variant) (st : loader) :
  (batch_size <= Z.of_nat (S (List.length (batch st))))%Z ->
  add r st =
  if sqlite_fails (attempts st)
  then Ok (mkLoader (batch st ++ [r])%list (db st) (total_rows st)
             (S (total_variants st)) (S (attempts st))
             (stdout st ++ [SQLite_error])%list)
  else Ok (mkLoader [] (executemany (db st) (batch st ++ [r])%list)
             (total_rows st) (S (total_variants st)) (S (attempts st))
             (stdout st)).
Proof.
  intros H. unfold add, flush_if_full, executemany_commit. simpl.
  rewrite length_app. simpl.
  destruct (Z.leb_spec batch_size (Z.of_nat (List.length (batch st) + 1)));
    [|lia].
  destruct (sqlite_fails (attempts st)); reflexivity.
Qed.

Lemma add_all_app (xs ys : list variant) (st : loader) :
  add_all (xs ++ ys)%list st = (st' <- add_all xs st ;; add_all ys st').
Proof.
  revert st. induction xs as [|x xs IH]; intros st; simpl; [reflexivity|].
  destruct (add x st); simpl; [apply IH|reflexivity].
Qed.

(** Records that do not fill the batch are only appended. *)
Lemma add_all_below (rs : list variant) (st : loader) :
  (Z.of_nat (List.length (batch st) + List.length rs) < batch_size)%Z ->
  add_all rs st =
  Ok (mkLoader (batch st ++ rs)%list (db st) (total_rows st)
        (total_variants st + List.length rs) (attempts st) (stdout st)).
Proof.
  revert st. induction rs as [|r rs IH]; intros st H; simpl.
  - rewrite app_nil_r, Nat.add_0_r. destruct st; reflexivity.
  - simpl in H. rewrite add_below by lia. simpl.
    rewrite IH by (simpl; rewrite length_app; simpl; lia).
    simpl. rewrite <- app_assoc. simpl.
    rewrite <- plus_n_Sm. reflexivity.
Qed.

(** C8, as the code has it.  From an empty batch and with a capacity of at
    least one, adding [batch_size] records makes one call of [executemany],
    on the last record and with all of them: while fewer have been added the
    records are only kept.  The batch is empty after that call when the
    store took it; when the store raised an error the batch still holds the
    [batch_size] records and the table is as before. *)
Theorem batch_flush_boundary (rs : list variant) (st : loader) :
  batch st = [] ->
  (1 <= batch_size)%Z ->
  Z.of_nat (List.length rs) = batch_size ->
  (forall k, k < List.length rs ->
     exists st', add_all (firstn k rs) st = Ok st'
       /\ attempts st' = attempts st /\ batch st' = firstn k rs
       /\ db st' = db st)
  /\ exists st', add_all rs st = Ok st'
       /\ attempts st' = S (attempts st)
       /\ (sqlite_fails (attempts st) = false ->
           batch st' = [] /\ db st' = executemany (db st) rs)
       /\ (sqlite_fails (attempts st) = true ->
           batch st' = rs /\ db st' = db st).
Proof.
  intros Hempty Hbs Hlen.
  assert (Hprefix : forall k, k < List.length rs ->
            add_all (firstn k rs) st =
            Ok (mkLoader (firstn k rs) (db st) (total_rows st)
                  (total_variants st + k) (attempts st) (stdout st))).
  { intros k Hk. rewrite add_all_below.
    - rewrite Hempty, length_firstn, Nat.min_l by lia. reflexivity.
    - rewrite Hempty, length_firstn. simpl. lia. }
  split.
  - intros k Hk. rewrite (Hprefix k Hk). eexists. split; [reflexivity|].
    simpl. auto.
  - destruct (exists_last (l := rs)) as (front & r & Hrs).
    { intros ->. simpl in Hlen. lia. }
    subst rs. rewrite length_app in *. simpl in *.
    specialize (Hprefix (List.length front) ltac:(lia)).
    rewrite firstn_app, firstn_all, Nat.sub_diag in Hprefix.
    simpl in Hprefix. rewrite app_nil_r in Hprefix.
    rewrite add_all_app, Hprefix. simpl. rewrite bind_Ok_r, add_full.
    + simpl. destruct (sqlite_fails (attempts st)); eexists;
        (split; [reflexivity|]); simpl;
        (split; [reflexivity|]); split; intros H; try discriminate; auto.
    + simpl. lia.
Qed.

Lemma failed_flushes_print (m : message) (st : loader) :
  failed_flushes (print m st)
  = failed_flushes st + (if is_SQLite_error m then 1 else 0).
Proof.
  unfold failed_flushes, print. simpl. rewrite filter_app, length_app. simpl.
  destruct (is_SQLite_error m); reflexivity.
Qed.

Lemma at_loop_head_bound (conn : table) (st : loader) :
  at_loop_head conn st ->
  (Z.of_nat (List.length (batch st))
   <= Z.max (batch_size - 1) 0 + Z.of_nat (failed_flushes st))%Z.
Proof.
  induction 1 as [|st row_num sample_id basic_data _ IH|st _ IH
                  |st r st' _ IH Hadd].
  - simpl. unfold failed_flushes. simpl. lia.
  - rewrite failed_flushes_print. simpl. lia.
  - exact IH.
  - destruct (Z.lt_ge_cases (Z.of_nat (S (List.length (batch st)))) batch_size)
      as [Hlt|Hge].
    + rewrite add_below in Hadd by exact Hlt. injection Hadd as <-.
      simpl. rewrite length_app. simpl. unfold failed_flushes in *. simpl. lia.
    + rewrite add_full in Hadd by exact Hge.
      destruct (sqlite_fails (attempts st)); injection Hadd as <-; simpl.
      * unfold failed_flushes in *. simpl.
        rewrite filter_app, !length_app. simpl. lia.
      * lia.
Qed.

(** The states the loops go through are of that kind. *)
Lemma process_sample_at_loop_head (conn : table) (row_num : nat)
  (row basic_data : list string) (st st' : loader) (i : nat)
  (sample_id : string) :
  at_loop_head conn st ->
  process_sample row_num row basic_data st i sample_id = Ok st' ->
  at_loop_head conn st'.
Proof.
  intros Hhead. rewrite process_sample_outcome.
  destruct (sample_outcome row basic_data i sample_id) as [| |r].
  - intros E. injection E as <-. exact Hhead.
  - intros E. injection E as <-. apply head_error. exact Hhead.
  - intros E. eapply head_add; eassumption.
Qed.

Lemma process_row_at_loop_head (conn : table) (sample_ids : list string)
  (st st' : loader) (row_num : nat) (row : list string) :
  at_loop_head conn st ->
  process_row sample_ids st row_num row = Ok st' ->
  at_loop_head conn st'.
Proof.
  intros Hhead. unfold process_row.
  destruct (for_enumerate_inv (process_sample row_num row (firstn 5 row))
              (fun _ s => at_loop_head conn s) sample_ids 0 st Hhead)
    as (s' & Hs' & Hhead').
  - intros k x s _ Hs.
    destruct (process_sample_total row_num row (firstn 5 row) s (0 + k) x) as [s1 H1].
    exists s1. split; [exact H1|].
    eapply process_sample_at_loop_head; eassumption.
  - rewrite Hs'. simpl. intros E. injection E as <-.
    apply head_count_row. exact Hhead'.
Qed.

Lemma stream_rows_at_loop_head (header : list string)
  (rows : list (list string)) (conn : table) (st : loader) :
  stream_rows header rows conn = Ok st -> at_loop_head conn st.
Proof.
  unfold stream_rows.
  destruct (for_enumerate_inv (process_row (skipn 5 header))
              (fun _ s => at_loop_head conn s) rows 1 (initial conn)
              (head_initial conn)) as (s' & Hs' & Hhead').
  - intros k row s _ Hs.
    destruct (process_row_total (skipn 5 header) s (1 + k) row) as [s1 H1].
    exists s1. split; [exact H1|].
    eapply process_row_at_loop_head; eassumption.
  - rewrite Hs'. intros E. injection E as <-. exact Hhead'.
Qed.

(** C9, as the code has it.  The states a run of the loop goes through are
    reachable, and in every reachable state the batch holds at most
    [batch_size] records (one, for a capacity below one) plus one record for
    each flush of the loop that was rolled back: a failed flush keeps its
    records, and the batch goes on growing.  While no flush has failed the
    batch holds at most [batch_size] records. *)
Theorem batch_bound (conn : table) :
  (forall header rows st, stream_rows header rows conn = Ok st ->
     reachable conn st)
  /\ forall st, reachable conn st ->
       (Z.of_nat (List.length (batch st))
        <= Z.max batch_size 1 + Z.of_nat (failed_flushes st))%Z
       /\ (failed_flushes st = 0 -> (1 <= batch_size)%Z ->
           (Z.of_nat (List.length (batch st)) <= batch_size)%Z).
Proof.
  split.
  - intros header rows st Hrun. apply reach_head.
    eapply stream_rows_at_loop_head. exact Hrun.
  - intros st Hreach.
    assert (Hbound : (Z.of_nat (List.length (batch st))
              <= Z.max (batch_size - 1) 0 + 1 + Z.of_nat (failed_flushes st))%Z).
    { destruct Hreach as [st Hhead|st r Hhead];
        apply at_loop_head_bound in Hhead.
      - lia.
      - simpl. rewrite length_app. simpl.
        unfold failed_flushes in *. simpl. lia. }
    split; [lia|]. intros Hnone Hbs. rewrite Hnone in Hbound. lia.
Qed.

(** ** A flush that the store refuses *)

(** C4, as the code has it.  When the store raises an error on a flush of
    the loop, the table is as before the flush (rolled back), the error is
    printed, the counters stand and the loop goes on.  The records of the
    batch are not dropped: the batch is kept as it was, and the next record
    is written together with them once the store takes the flush.  Only on
    the flush after the loop are the records of a refused batch left out of
    the table. *)
Theorem flush_error_keeps_batch (st : loader) :
  sqlite_fails (attempts st) = true ->
  (batch_size <= Z.of_nat (List.length (batch st)))%Z ->
  (exists st', flush_if_full st = Ok st'
     /\ db st' = db st
     /\ stdout st' = (stdout st ++ [SQLite_error])%list
     /\ batch st' = batch st
     /\ total_rows st' = total_rows st
     /\ total_variants st' = total_variants st
     /\ attempts st' = S (attempts st)
     /\ forall r, sqlite_fails (S (attempts st)) = false ->
          exists st'', add r st' = Ok st''
            /\ batch st'' = []
            /\ db st'' = executemany (db st) (batch st ++ [r])%list)
  /\ (batch st <> [] ->
      exists st', final_flush st = Ok st'
        /\ db st' = db st
        /\ stdout st' = (stdout st ++ [SQLite_error_final_batch])%list).
Proof.
  intros Hfail Hfull. split.
  - unfold flush_if_full, executemany_commit.
    destruct (Z.leb_spec batch_size (Z.of_nat (List.length (batch st)))); [|lia].
    rewrite Hfail. simpl. eexists. split; [reflexivity|]. simpl.
    repeat (split; [reflexivity|]).
    intros r Hnext. rewrite add_full by (simpl; lia). simpl.
    rewrite Hnext. eexists. split; [reflexivity|]. simpl. auto.
  - intros Hne. unfold final_flush, executemany_commit.
    destruct (batch st) as [|r0 rest] eqn:Hb; [contradiction|].
    rewrite Hfail. simpl. eexists. split; [reflexivity|]. simpl. auto.
Qed.

(** ** INSERT OR IGNORE *)

Lemma key_eqb_refl (k : string * string * Z) : key_eqb k k = true.
Proof.
  unfold key_eqb. rewrite !String.eqb_refl, Z.eqb_refl. reflexivity.
Qed.

Lemma has_key_app (tbl tbl' : table) (k : string * string * Z) :
  has_key (tbl ++ tbl')%list k = has_key tbl k || has_key tbl' k.
Proof. unfold has_key. apply existsb_app. Qed.

Lemma insert_or_ignore_keeps (tbl : table) (r : variant)
  (k : string * string * Z) :
  has_key tbl k = true -> has_key (insert_or_ignore tbl r) k = true.
Proof.
  intros H. unfold insert_or_ignore.
  destruct (has_key tbl (primary_key r)); [exact H|].
  rewrite has_key_app, H. reflexivity.
Qed.

Lemma insert_or_ignore_has (tbl : table) (r : variant) :
  has_key (insert_or_ignore tbl r) (primary_key r) = true.
Proof.
  unfold insert_or_ignore.
  destruct (has_key tbl (primary_key r)) eqn:H; [exact H|].
  rewrite has_key_app. simpl. rewrite key_eqb_refl, orb_true_r. reflexivity.
Qed.

Lemma executemany_keeps (rows : list variant) (tbl : table)
  (k : string * string * Z) :
  has_key tbl k = true -> has_key (executemany tbl rows) k = true.
Proof.
  unfold executemany. revert tbl.
  induction rows as [|r rows IH]; intros tbl H; simpl; [exact H|].
  apply IH, insert_or_ignore_keeps, H.
Qed.

Lemma executemany_has (rows : list variant) (tbl : table) (r : variant) :
  In r rows -> has_key (executemany tbl rows) (primary_key r) = true.
Proof.
  revert tbl. induction rows as [|r0 rows IH]; intros tbl Hin; [contradiction|].
  destruct Hin as [->|Hin].
  - apply (executemany_keeps rows), insert_or_ignore_has.
  - apply (IH (insert_or_ignore tbl r0) Hin).
Qed.

(** Rows whose keys are all in the table change nothing. *)
Lemma executemany_present (rows : list variant) (tbl : table) :
  (forall r, In r rows -> has_key tbl (primary_key r) = true) ->
  executemany tbl rows = tbl.
Proof.
  unfold executemany. induction rows as [|r rows IH]; intros H; simpl;
    [reflexivity|].
  unfold insert_or_ignore at 2. rewrite (H r (or_introl eq_refl)).
  apply IH. intros r' Hr'. apply H. right. exact Hr'.
Qed.

(** The rows that were in the table stay, in their places. *)
Lemma executemany_extends (rows : list variant) (tbl : table) :
  exists added, executemany tbl rows = (tbl ++ added)%list.
Proof.
  unfold executemany. revert tbl.
  induction rows as [|r rows IH]; intros tbl; simpl.
  - exists []. rewrite app_nil_r. reflexivity.
  - destruct (IH (insert_or_ignore tbl r)) as [added Hadded].
    rewrite Hadded. unfold insert_or_ignore.
    destruct (has_key tbl (primary_key r)).
    + exists added. reflexivity.
    + exists (r :: added). rewrite <- app_assoc. reflexivity.
Qed.

(** ** What a load leaves in the table *)

Lemma add_cases (r : variant) (st : loader) :
  add r st = Ok (append r st)
  \/ add r st =
       Ok (mkLoader (batch st ++ [r])%list (db st) (total_rows st)
             (S (total_variants st)) (S (attempts st))
             (stdout st ++ [SQLite_error])%list)
  \/ add r st =
       Ok (mkLoader [] (executemany (db st) (batch st ++ [r])%list)
             (total_rows st) (S (total_variants st)) (S (attempts st))
             (stdout st)).
Proof.
  unfold add.
  destruct (flush_if_full_cases (append r st)) as [H|[H|H]]; rewrite H; auto.
Qed.

Lemma add_covered (r : variant) (st st' : loader) :
  add r st = Ok st' ->
  covered st' r /\ forall r0, covered st r0 -> covered st' r0.
Proof.
  unfold covered.
  destruct (add_cases r st) as [H|[H|H]]; rewrite H; intros E;
    injection E as <-; simpl.
  - split; [right; apply in_or_app; right; left; reflexivity|].
    intros r0 [H0|H0]; [auto|right; apply in_or_app; auto].
  - split; [right; apply in_or_app; right; left; reflexivity|].
    intros r0 [H0|H0]; [auto|right; apply in_or_app; auto].
  - split.
    + left. apply executemany_has, in_or_app. right. left. reflexivity.
    + intros r0 [H0|H0]; left.
      * apply executemany_keeps, H0.
      * apply executemany_has, in_or_app. auto.
Qed.

Lemma process_sample_covered (row_num : nat) (row basic_data : list string)
  (st st' : loader) (i : nat) (sample_id : string) :
  process_sample row_num row basic_data st i sample_id = Ok st' ->
  (forall r0, covered st r0 -> covered st' r0)
  /\ (forall r, sample_outcome row basic_data i sample_id = Emitted r ->
        covered st' r).
Proof.
  rewrite process_sample_outcome.
  destruct (sample_outcome row basic_data i sample_id) as [| |r].
  - intros E. injection E as <-. split; [auto|discriminate].
  - intros E. injection E as <-. split; [auto|discriminate].
  - intros E. apply add_covered in E as [Hr Hkeep].
    split; [exact Hkeep|]. intros r' Hr'. injection Hr' as <-. exact Hr.
Qed.

Lemma process_row_covered (sample_ids : list string) (st st' : loader)
  (row_num : nat) (row : list string) :
  process_row sample_ids st row_num row = Ok st' ->
  (forall r0, covered st r0 -> covered st' r0)
  /\ (forall i sample_id r, nth_error sample_ids i = Some sample_id ->
        sample_outcome row (firstn 5 row) i sample_id = Emitted r ->
        covered st' r).
Proof.
  unfold process_row.
  destruct (for_enumerate_inv (process_sample row_num row (firstn 5 row))
    (fun k s => (forall r0, covered st r0 -> covered s r0)
                /\ forall i sample_id r, i < k ->
                     nth_error sample_ids i = Some sample_id ->
                     sample_outcome row (firstn 5 row) i sample_id = Emitted r ->
                     covered s r)
    sample_ids 0 st) as (s' & Hs' & Hkeep & Hall).
  - split; [auto|]. intros i sample_id r Hi. lia.
  - intros k x s Hk (Hkeep & Hall).
    destruct (process_sample_total row_num row (firstn 5 row) s (0 + k) x) as [s1 H1].
    exists s1. split; [exact H1|].
    apply process_sample_covered in H1 as [Hkeep1 Hnew]. simpl in Hnew.
    split; [auto|]. intros i sample_id r Hi Hid Hout.
    destruct (Nat.eq_dec i k) as [->|Hne].
    + assert (sample_id = x) by congruence. subst. apply Hnew, Hout.
    + apply Hkeep1. apply (Hall i sample_id r); [lia|assumption|assumption].
  - rewrite Hs'. simpl. intros E. injection E as <-.
    unfold covered in *. simpl. split; [exact Hkeep|].
    intros i sample_id r Hid Hout. apply (Hall i sample_id r); try assumption.
    apply nth_error_Some. congruence.
Qed.

Lemma stream_rows_covered (header : list string) (rows : list (list string))
  (conn : table) (st : loader) :
  stream_rows header rows conn = Ok st ->
  forall row i sample_id r,
    In row rows -> nth_error (skipn 5 header) i = Some sample_id ->
    sample_outcome row (firstn 5 row) i sample_id = Emitted r ->
    covered st r.
Proof.
  unfold stream_rows. set (ids := skipn 5 header).
  destruct (for_enumerate_inv (process_row ids)
    (fun k s => forall j row i sample_id r, j < k ->
                  nth_error rows j = Some row ->
                  nth_error ids i = Some sample_id ->
                  sample_outcome row (firstn 5 row) i sample_id = Emitted r ->
                  covered s r)
    rows 1 (initial conn)) as (s' & Hs' & Hall).
  - intros j row i sample_id r Hj. lia.
  - intros k row s Hrow Hall.
    destruct (process_row_total ids s (1 + k) row) as [s1 H1].
    exists s1. split; [exact H1|].
    apply process_row_covered in H1 as [Hkeep Hnew].
    intros j row' i sample_id r Hj Hrow' Hid Hout.
    destruct (Nat.eq_dec j k) as [->|Hne].
    + assert (row' = row) by congruence. subst. eapply Hnew; eassumption.
    + apply Hkeep. apply (Hall j row' i sample_id r); try assumption. lia.
  - rewrite Hs'. intros E. injection E as <-.
    intros row i sample_id r Hin Hid Hout.
    apply In_nth_error in Hin as [j Hj].
    apply (Hall j row i sample_id r); try assumption.
    apply nth_error_Some. congruence.
Qed.

(** A load whose last flush was not refused has written every record. *)
Lemma load_holds_input (header : list string) (rows : list (list string))
  (output_db : option table) (st : loader) :
  transform_and_load_data header rows output_db = Ok st ->
  ~ In SQLite_error_final_batch (stdout st) ->
  holds_input (db st) header rows.
Proof.
  unfold transform_and_load_data.
  destruct (stream_rows header rows (create_database output_db)) as [s|e] eqn:Hs;
    simpl; [|discriminate].
  intros Hfinal Hlog row i sample_id r Hin Hid Hout.
  pose proof (stream_rows_covered _ _ _ _ Hs row i sample_id r Hin Hid Hout)
    as Hcov.
  destruct (final_flush_cases s) as [[Hb H]|[H|H]]; rewrite H in Hfinal;
    injection Hfinal as <-; cbn [db stdout] in *.
  - destruct Hcov as [Hc|Hc]; [exact Hc|]. rewrite Hb in Hc. contradiction.
  - destruct Hcov as [Hc|Hc].
    + apply (executemany_keeps (batch s)), Hc.
    + apply (executemany_has (batch s)), Hc.
  - exfalso. apply Hlog, in_or_app. right. left. reflexivity.
Qed.

Lemma add_settled (tbl : table) (r : variant) (st st' : loader) :
  settled tbl st -> has_key tbl (primary_key r) = true ->
  add r st = Ok st' -> settled tbl st'.
Proof.
  unfold settled. intros [Hdb Hbatch] Hr.
  assert (Hall : forall r', In r' (batch st ++ [r])%list ->
            has_key tbl (primary_key r') = true).
  { intros r' Hin. apply in_app_or in Hin as [Hin|[<-|[]]]; auto. }
  destruct (add_cases r st) as [H|[H|H]]; rewrite H; intros E;
    injection E as <-; simpl.
  - auto.
  - auto.
  - split; [|intros r' []]. rewrite Hdb. apply executemany_present, Hall.
Qed.

Lemma process_row_settled (tbl : table) (sample_ids : list string)
  (st st' : loader) (row_num : nat) (row : list string) :
  settled tbl st ->
  (forall i sample_id r, nth_error sample_ids i = Some sample_id ->
     sample_outcome row (firstn 5 row) i sample_id = Emitted r ->
     has_key tbl (primary_key r) = true) ->
  process_row sample_ids st row_num row = Ok st' ->
  settled tbl st'.
Proof.
  intros Hst Hkeys. unfold process_row.
  destruct (for_enumerate_inv (process_sample row_num row (firstn 5 row))
              (fun _ s => settled tbl s) sample_ids 0 st Hst)
    as (s' & Hs' & Hsettled).
  - intros k x s Hk Hs.
    destruct (process_sample_total row_num row (firstn 5 row) s (0 + k) x)
      as [s1 H1].
    exists s1. split; [exact H1|].
    rewrite process_sample_outcome in H1. change (0 + k) with k in H1.
    destruct (sample_outcome row (firstn 5 row) k x) as [| |r] eqn:Hout.
    + injection H1 as <-. exact Hs.
    + injection H1 as <-. exact Hs.
    + eapply add_settled; [exact Hs| |exact H1].
      apply (Hkeys k x r Hk Hout).
  - rewrite Hs'. simpl. intros E. injection E as <-. exact Hsettled.
Qed.

(** A load into a table that holds the keys of the input leaves the table
    as it is, whatever the store answers. *)
Lemma load_settled (tbl : table) (header : list string)
  (rows : list (list string)) :
  holds_input tbl header rows ->
  exists st, transform_and_load_data header rows (Some tbl) = Ok st
    /\ db st = tbl.
Proof.
  intros Hholds. unfold transform_and_load_data, stream_rows, create_database.
  destruct (for_enumerate_inv (process_row (skipn 5 header))
              (fun _ s => settled tbl s) rows 1 (initial tbl))
    as (s & Hs & Hdb & Hbatch).
  - split; [reflexivity|]. intros r [].
  - intros k row st Hrow Hst.
    destruct (process_row_total (skipn 5 header) st (1 + k) row) as [s1 H1].
    exists s1. split; [exact H1|].
    eapply process_row_settled; [exact Hst| |exact H1].
    intros i sample_id r Hid Hout.
    apply (Hholds row i sample_id r); try assumption.
    eapply nth_error_In. exact Hrow.
  - rewrite Hs. cbn [bind].
    destruct (final_flush_cases s) as [[_ H]|[H|H]]; rewrite H; eexists;
      (split; [reflexivity|]); cbn [db]; try exact Hdb.
    rewrite Hdb. apply executemany_present, Hbatch.
Qed.

Lemma at_loop_head_extends (conn : table) (st : loader) :
  at_loop_head conn st -> exists added, db st = (conn ++ added)%list.
Proof.
  induction 1 as [|st row_num sample_id basic_data _ IH|st _ IH
                  |st r st' _ IH Hadd].
  - exists []. simpl. rewrite app_nil_r. reflexivity.
  - exact IH.
  - exact IH.
  - destruct IH as [added IH].
    destruct (add_cases r st) as [H|[H|H]]; rewrite H in Hadd;
      injection Hadd as <-; simpl.
    + exists added. exact IH.
    + exists added. exact IH.
    + destruct (executemany_extends (batch st ++ [r])%list (db st)) as [more Hmore].
      exists (added ++ more)%list. rewrite Hmore, IH, app_assoc. reflexivity.
Qed.

Lemma load_extends (header : list string) (rows : list (list string))
  (output_db : option table) (st : loader) :
  transform_and_load_data header rows output_db = Ok st ->
  exists added, db st = (create_database output_db ++ added)%list.
Proof.
  unfold transform_and_load_data.
  destruct (stream_rows header rows (create_database output_db)) as [s|e] eqn:Hs;
    simpl; [|discriminate].
  apply stream_rows_at_loop_head, at_loop_head_extends in Hs as [added Hadded].
  intros Hfinal.
  destruct (final_flush_cases s) as [[_ H]|[H|H]]; rewrite H in Hfinal;
    injection Hfinal as <-; simpl; try (exists added; exact Hadded).
  destruct (executemany_extends (batch s) (db s)) as [more Hmore].
  exists (added ++ more)%list. rewrite Hmore, Hadded, app_assoc. reflexivity.
Qed.

(** ** The table as a function of the observations *)

Lemma executemany_app (tbl : table) (xs ys : list variant) :
  executemany tbl (xs ++ ys)%list = executemany (executemany tbl xs) ys.
Proof. unfold executemany. apply fold_left_app. Qed.

Lemma executemany_length (rows : list variant) (tbl : table) :
  List.length tbl <= List.length (executemany tbl rows)
  /\ List.length (executemany tbl rows) <= List.length tbl + List.length rows.
Proof.
  unfold executemany. revert tbl.
  induction rows as [|r rows IH]; intros tbl; simpl; [lia|].
  destruct (IH (insert_or_ignore tbl r)) as [Hlo Hhi].
  unfold insert_or_ignore in *.
  destruct (has_key tbl (primary_key r)).
  - lia.
  - rewrite length_app in *. simpl in *. lia.
Qed.

Lemma tracks_initial (conn : table) : tracks conn [] (initial conn).
Proof.
  split; [reflexivity|]. exists []. split; reflexivity.
Qed.

Lemma add_tracks (conn : table) (recs : list variant) (r : variant)
  (st st' : loader) :
  tracks conn recs st -> add r st = Ok st' ->
  tracks conn (recs ++ [r])%list st'.
Proof.
  intros (Hcount & done & Hrecs & Hdb) Hadd. unfold tracks.
  rewrite length_app, Nat.add_comm. simpl.
  destruct (add_cases r st) as [H|[H|H]]; rewrite H in Hadd;
    injection Hadd as <-; cbn [total_variants batch db append].
  - split; [congruence|]. exists done. rewrite Hrecs, app_assoc. auto.
  - split; [congruence|]. exists done. rewrite Hrecs, app_assoc. auto.
  - split; [congruence|]. exists (done ++ batch st ++ [r])%list.
    rewrite app_nil_r, Hrecs, <- app_assoc. split; [reflexivity|].
    rewrite Hdb, <- executemany_app. reflexivity.
Qed.

Lemma samples_track (conn : table) (row_num : nat) (row basic_data : list string)
  (ids : list string) :
  forall start recs st st',
    tracks conn recs st ->
    for_enumerate (process_sample row_num row basic_data) start ids st = Ok st' ->
    tracks conn (recs ++ emitted_from row basic_data start ids)%list st'.
Proof.
  induction ids as [|sample_id ids IH]; intros start recs st st' Htr Hrun.
  - simpl in *. injection Hrun as <-. rewrite app_nil_r. exact Htr.
  - cbn [for_enumerate emitted_from] in *.
    rewrite process_sample_outcome in Hrun.
    destruct (sample_outcome row basic_data start sample_id) as [| |r].
    + cbn [bind] in Hrun. exact (IH _ _ _ _ Htr Hrun).
    + cbn [bind] in Hrun.
      exact (IH (S start) recs
               (print (Error_processing_row row_num sample_id basic_data) st)
               st' Htr Hrun).
    + destruct (flush_if_full (append r st)) as [st1|e] eqn:Hadd;
        cbn [bind] in Hrun; [|discriminate].
      replace (recs ++ r :: emitted_from row basic_data (S start) ids)%list
        with ((recs ++ [r]) ++ emitted_from row basic_data (S start) ids)%list
        by (rewrite <- app_assoc; reflexivity).
      apply (IH _ _ _ _ (add_tracks _ _ _ _ _ Htr Hadd) Hrun).
Qed.

Lemma rows_track (conn : table) (sample_ids : list string)
  (rows : list (list string)) :
  forall start recs st st',
    tracks conn recs st ->
    for_enumerate (process_row sample_ids) start rows st = Ok st' ->
    tracks conn (recs ++ flat_map (row_records sample_ids) rows)%list st'.
Proof.
  induction rows as [|row rows IH]; intros start recs st st' Htr Hrun.
  - simpl in *. injection Hrun as <-. rewrite app_nil_r. exact Htr.
  - cbn [for_enumerate flat_map] in *. unfold process_row at 1 in Hrun.
    destruct (for_enumerate (process_sample start row (firstn 5 row)) 0
                sample_ids st) as [st1|e] eqn:Hrow;
      cbn [bind] in Hrun; [|discriminate].
    rewrite app_assoc.
    apply (IH (S start) _ (count_row st1) st'); [|exact Hrun].
    apply (samples_track conn start row (firstn 5 row) sample_ids 0 recs st)
      in Hrow; [|exact Htr].
    exact Hrow.
Qed.

Lemma stream_rows_tracks (header : list string) (rows : list (list string))
  (conn : table) (st : loader) :
  stream_rows header rows conn = Ok st ->
  tracks conn (all_records header rows) st.
Proof.
  unfold stream_rows. intros Hrun.
  apply (rows_track conn (skipn 5 header) rows 1 [] (initial conn) st
           (tracks_initial conn)) in Hrun.
  exact Hrun.
Qed.

(** What the load has done when it returns. *)
Lemma load_tracks (header : list string) (rows : list (list string))
  (output_db : option table) (st : loader) :
  transform_and_load_data header rows output_db = Ok st ->
  total_variants st = List.length (all_records header rows)
  /\ (exists k, db st = executemany (create_database output_db)
                          (firstn k (all_records header rows)))
  /\ (~ In SQLite_error_final_batch (stdout st) ->
      db st = executemany (create_database output_db)
                (all_records header rows)).
Proof.
  unfold transform_and_load_data.
  destruct (stream_rows header rows (create_database output_db)) as [s|e] eqn:Hs;
    cbn [bind]; [|discriminate].
  apply stream_rows_tracks in Hs as (Hcount & done & Hrecs & Hdb).
  intros Hfinal.
  assert (Hall : executemany (db s) (batch s)
                 = executemany (create_database output_db)
                     (all_records header rows)).
  { rewrite Hrecs, executemany_app, Hdb. reflexivity. }
  assert (Hdone : firstn (List.length done) (all_records header rows) = done).
  { rewrite Hrecs, firstn_app, firstn_all, Nat.sub_diag. simpl.
    apply app_nil_r. }
  destruct (final_flush_cases s) as [[Hb H]|[H|H]]; rewrite H in Hfinal;
    injection Hfinal as <-; cbn [total_variants db stdout].
  - split; [exact Hcount|]. rewrite Hb in Hall. simpl in Hall.
    split; [|intros _; exact Hall].
    exists (List.length done). rewrite Hdone. exact Hdb.
  - split; [exact Hcount|]. split; [|intros _; exact Hall].
    exists (List.length (all_records header rows)).
    rewrite firstn_all. exact Hall.
  - split; [exact Hcount|]. split.
    + exists (List.length done). rewrite Hdone. exact Hdb.
    + intros Hlog. exfalso. apply Hlog, in_or_app. right. left. reflexivity.
Qed.

(** X1. Batching is not seen in the table.  Whatever the capacity of the
    batch and whichever flushes the store refuses, the table a load leaves
    is the table it found with a first part of the observations of the
    input inserted one by one, in the order of the rows and, within a row,
    of the sample columns; when the last flush is not refused, with all of
    them. *)
Theorem table_is_fold_of_observations (header : list string)
  (rows : list (list string)) (output_db : option table) (st : loader) :
  transform_and_load_data header rows output_db = Ok st ->
  (exists k, db st = fold_left insert_or_ignore
                       (firstn k (all_records header rows))
                       (create_database output_db))
  /\ (~ In SQLite_error_final_batch (stdout st) ->
      db st = fold_left insert_or_ignore (all_records header rows)
                (create_database output_db)).
Proof.
  intros Hload. apply load_tracks in Hload as (_ & Hprefix & Hall).
  split; assumption.
Qed.

(** X2. The count the loader reports is the number of observations it built,
    and is at least the number of rows the load added to the table: an
    observation whose key is taken adds no row. *)
Theorem reported_count_bounds_rows (header : list string)
  (rows : list (list string)) (output_db : option table) (st : loader) :
  transform_and_load_data header rows output_db = Ok st ->
  total_variants st = List.length (all_records header rows)
  /\ List.length (create_database output_db) <= List.length (db st)
  /\ List.length (db st)
     <= List.length (create_database output_db) + total_variants st.
Proof.
  intros Hload. apply load_tracks in Hload as (Hcount & (k & Hdb) & _).
  split; [exact Hcount|]. rewrite Hdb, Hcount.
  destruct (executemany_length (firstn k (all_records header rows))
              (create_database output_db)) as [Hlo Hhi].
  split; [exact Hlo|].
  rewrite length_firstn in Hhi. lia.
Qed.

(** ** The primary key *)

Lemma key_eqb_eq (k1 k2 : string * string * Z) :
  key_eqb k1 k2 = true <-> k1 = k2.
Proof.
  destruct k1 as [[a1 b1] c1], k2 as [[a2 b2] c2]. unfold key_eqb. simpl.
  rewrite !andb_true_iff, !String.eqb_eq, Z.eqb_eq. split.
  - intros [[-> ->] ->]. reflexivity.
  - intros H. injection H as -> -> ->. auto.
Qed.

Lemma has_key_In (tbl : table) (k : string * string * Z) :
  has_key tbl k = true <-> In k (map primary_key tbl).
Proof.
  unfold has_key. rewrite existsb_exists, in_map_iff. split.
  - intros (r & Hin & Heq). apply key_eqb_eq in Heq. exists r. auto.
  - intros (r & Heq & Hin). exists r. split; [exact Hin|].
    apply key_eqb_eq. exact Heq.
Qed.

Lemma has_key_false (tbl : table) (k : string * string * Z) :
  has_key tbl k = false <-> ~ In k (map primary_key tbl).
Proof.
  rewrite <- has_key_In. destruct (has_key tbl k); split; intros H;
    try reflexivity; try discriminate; try (intros H'; discriminate).
  exfalso. apply H. reflexivity.
Qed.

Lemma insert_or_ignore_unique (tbl : table) (r : variant) :
  keys_unique tbl -> keys_unique (insert_or_ignore tbl r).
Proof.
  unfold keys_unique, insert_or_ignore. intros Hu.
  destruct (has_key tbl (primary_key r)) eqn:Hk; [exact Hu|].
  rewrite map_app. simpl. apply NoDup_app.
  - exact Hu.
  - constructor; [intros []|constructor].
  - intros k Hin [<-|[]]. apply has_key_false in Hk. contradiction.
Qed.

Lemma executemany_unique (rows : list variant) (tbl : table) :
  keys_unique tbl -> keys_unique (executemany tbl rows).
Proof.
  unfold executemany. revert tbl.
  induction rows as [|r rows IH]; intros tbl Hu; simpl; [exact Hu|].
  apply IH, insert_or_ignore_unique, Hu.
Qed.

Lemma executemany_In_old (rows : list variant) (tbl : table) (r : variant) :
  In r tbl -> In r (executemany tbl rows).
Proof.
  intros Hin. destruct (executemany_extends rows tbl) as [added ->].
  apply in_or_app. left. exact Hin.
Qed.

(** The rows of the table after [executemany]: those it had, and of each new
    key the first record that bears it. *)
Lemma executemany_In_iff (rows : list variant) :
  forall (tbl : table) (r : variant),
    In r (executemany tbl rows)
    <-> In r tbl
        \/ (has_key tbl (primary_key r) = false
            /\ exists before after,
                 rows = (before ++ r :: after)%list
                 /\ forall r', In r' before -> primary_key r' <> primary_key r).
Proof.
  induction rows as [|x rows IH]; intros tbl r.
  - simpl. split; [auto|]. intros [H|(_ & before & after & H & _)]; [exact H|].
    destruct before; discriminate.
  - change (executemany tbl (x :: rows))
      with (executemany (insert_or_ignore tbl x) rows).
    rewrite IH. unfold insert_or_ignore.
    destruct (has_key tbl (primary_key x)) eqn:Hx.
    + split.
      * intros [H|(Hk & before & after & -> & Hb)]; [auto|]. right.
        split; [exact Hk|]. exists (x :: before), after.
        split; [reflexivity|]. intros r' [<-|Hr']; [|auto].
        intros Heq. rewrite Heq in Hx. congruence.
      * intros [H|(Hk & before & after & Hrows & Hb)]; [auto|]. right.
        split; [exact Hk|]. destruct before as [|b before].
        -- injection Hrows as -> _. congruence.
        -- injection Hrows as -> ->. exists before, after.
           split; [reflexivity|]. intros r' Hr'. apply Hb. right. exact Hr'.
    + split.
      * intros [H|(Hk & before & after & -> & Hb)].
        -- apply in_app_or in H as [H|[<-|[]]]; [auto|]. right.
           split; [exact Hx|]. exists [], rows. split; [reflexivity|].
           intros r' [].
        -- rewrite has_key_app in Hk. apply orb_false_iff in Hk as [Hk Hxr].
           right. split; [exact Hk|]. exists (x :: before), after.
           split; [reflexivity|]. intros r' [<-|Hr']; [|auto].
           intros Heq. simpl in Hxr. rewrite Heq, key_eqb_refl in Hxr.
           discriminate.
      * intros [H|(Hk & before & after & Hrows & Hb)].
        -- left. apply in_or_app. auto.
        -- destruct before as [|b before].
           ++ injection Hrows as -> _. left. apply in_or_app. right. left.
              reflexivity.
           ++ injection Hrows as -> ->. right. split.
              ** rewrite has_key_app, Hk. simpl.
                 destruct (key_eqb (primary_key b) (primary_key r)) eqn:Hbr;
                   [|reflexivity].
                 apply key_eqb_eq in Hbr. exfalso.
                 apply (Hb b (or_introl eq_refl) Hbr).
              ** exists before, after. split; [reflexivity|].
                 intros r' Hr'. apply Hb. right. exact Hr'.
Qed.

(** X3. The load keeps the primary key: when no two rows of the table have
    the same (file_id, CHROM, POS) before the load, none have after it,
    whatever the input and whatever the store answers. *)
Theorem load_keeps_keys_unique (header : list string)
  (rows : list (list string)) (output_db : option table) (st : loader) :
  keys_unique (create_database output_db) ->
  transform_and_load_data header rows output_db = Ok st ->
  keys_unique (db st).
Proof.
  intros Hu Hload. apply load_tracks in Hload as (_ & (k & ->) & _).
  apply executemany_unique, Hu.
Qed.

(** X4. First write wins over the whole input.  After a load whose last
    flush was not refused, a row is in the table exactly when it was there
    before, or when it is the first observation of the input, in the order
    of the rows and of the sample columns, to bear its key, and that key was
    not in the table. *)
Theorem first_observation_of_a_key_is_stored (header : list string)
  (rows : list (list string)) (output_db : option table) (st : loader)
  (r : variant) :
  transform_and_load_data header rows output_db = Ok st ->
  ~ In SQLite_error_final_batch (stdout st) ->
  (In r (db st)
   <-> In r (create_database output_db)
       \/ (has_key (create_database output_db) (primary_key r) = false
           /\ exists before after,
                all_records header rows = (before ++ r :: after)%list
                /\ forall r', In r' before ->
                     primary_key r' <> primary_key r)).
Proof.
  intros Hload Hlog. apply load_tracks in Hload as (_ & _ & Hall).
  rewrite (Hall Hlog). apply executemany_In_iff.
Qed.

(** ** The fields of a record *)

Lemma parse_cell_Some (cell : string) (c : SampleCell) :
  parse_cell cell = Ok (Some c) ->
  exists g a d q p, split ":" cell = [g; a; d; q; p]
    /\ gt c = g /\ ad c = a /\ pl c = p.
Proof.
  intros Hparse.
  destruct (sentinel_or_empty cell) eqn:Hs.
  - assert (Hnone : parse_cell cell = Ok None).
    { apply parse_cell_None_iff. apply sentinel_or_empty_iff in Hs.
      unfold absent_cell. destruct Hs as [H|[H|H]]; auto. }
    congruence.
  - destruct (Nat.eq_dec (List.length (split ":" cell)) 5) as [H5|H5].
    + destruct (length_five _ H5) as (g & a & d & q & p & Hsplit).
      destruct (parse_cell_five _ _ _ _ _ _ Hs Hsplit) as (conv & _ & Hp).
      rewrite Hp in Hparse. injection Hparse as <-.
      exists g, a, d, q, p. simpl. auto.
    + assert (Hnone : parse_cell cell = Ok None).
      { apply parse_cell_None_iff. unfold absent_cell.
        right; right; right. exact H5. }
      congruence.
Qed.

Lemma make_record_fields (sample_id chrom pos_cell id ref alt : string)
  (c : SampleCell) (r : variant) :
  make_record sample_id [chrom; pos_cell; id; ref; alt] c = Ok r ->
  r = mkVariant sample_id chrom (position_value pos_cell) id ref alt
        (gt c) (ad c) (dp c) (gq c) (pl c).
Proof.
  rewrite make_record_five. unfold position_value.
  destruct (isdigit pos_cell).
  - destruct (py_int pos_cell) as [n|e] eqn:Hint; cbn [bind]; [|discriminate].
    apply py_int_Ok in Hint as (_ & _ & ->). intros H. injection H as <-.
    reflexivity.
  - cbn [bind]. intros H. injection H as <-. reflexivity.
Qed.

Lemma emitted_fields (row : list string) (i : nat) (sample_id : string)
  (r : variant) :
  sample_outcome row (firstn 5 row) i sample_id = Emitted r ->
  exists chrom pos_cell id ref alt cell g a d q p,
    firstn 5 row = [chrom; pos_cell; id; ref; alt]
    /\ nth_error row (i + 5) = Some cell
    /\ split ":" cell = [g; a; d; q; p]
    /\ r = mkVariant sample_id chrom (position_value pos_cell) id ref alt
             g a (DP r) (GQ r) p.
Proof.
  unfold sample_outcome.
  destruct (nth_error row (i + 5)) as [cell|] eqn:Hcell; [|discriminate].
  destruct (parse_cell cell) as [[c|]|] eqn:Hparse; try discriminate.
  assert (Hlen : i + 5 < List.length row).
  { apply nth_error_Some. congruence. }
  destruct row as [|chrom [|pos_cell [|id [|ref [|alt rest]]]]];
    simpl in Hlen; try lia.
  cbn [firstn].
  destruct (make_record sample_id [chrom; pos_cell; id; ref; alt] c)
    as [r'|e] eqn:Hmake; [|discriminate].
  intros H. injection H as <-.
  apply make_record_fields in Hmake.
  apply parse_cell_Some in Hparse as (g & a & d & q & p & Hsplit & Hg & Ha & Hp).
  exists chrom, pos_cell, id, ref, alt, cell, g, a, d, q, p.
  repeat (split; [reflexivity || assumption|]).
  rewrite Hmake at 1. simpl. rewrite Hg, Ha, Hp. subst r'. reflexivity.
Qed.

(** X5. A record is made of the cells as they stand: the sample label of the
    header as file_id; the first, third, fourth and fifth cell of the row as
    CHROM, ID, REF and ALT; the first, second and fifth part of the sample's
    cell as GT, AD and PL; and as POS the value of the second cell, or 0 when
    that cell fails the digit test.  The body of the loop does with the
    sample what [add] does with that record. *)
Theorem record_is_made_of_the_cells (row_num : nat) (row : list string)
  (st : loader) (i : nat) (sample_id : string) (r : variant) :
  sample_outcome row (firstn 5 row) i sample_id = Emitted r ->
  process_sample row_num row (firstn 5 row) st i sample_id = add r st
  /\ exists chrom pos_cell id ref alt cell g a d q p,
       firstn 5 row = [chrom; pos_cell; id; ref; alt]
       /\ nth_error row (i + 5) = Some cell
       /\ split ":" cell = [g; a; d; q; p]
       /\ file_id r = sample_id /\ CHROM r = chrom
       /\ POS r = position_value pos_cell
       /\ ID r = id /\ REF r = ref /\ ALT r = alt
       /\ GT r = g /\ AD r = a /\ PL r = p.
Proof.
  intros Hout. split.
  - rewrite process_sample_outcome, Hout. reflexivity.
  - apply emitted_fields in Hout
      as (chrom & pos_cell & id & ref & alt & cell & g & a & d & q & p
          & H5 & Hcell & Hsplit & ->).
    exists chrom, pos_cell, id, ref, alt, cell, g, a, d, q, p.
    simpl. repeat split; assumption.
Qed.

(** X6. Observations under the same sample label, with the same CHROM cell
    and POS cells of the same value, have the same primary key, and once the
    first is in the table the second is ignored.  This is so for two sample
    columns with the same label, for two rows whose POS cells both fail the
    digit test (both 0), and for POS cells that differ in leading zeros. *)
Theorem same_key_is_ignored (row1 row2 : list string) (i j : nat)
  (sample_id chrom pos1 pos2 : string) (r1 r2 : variant) :
  sample_outcome row1 (firstn 5 row1) i sample_id = Emitted r1 ->
  sample_outcome row2 (firstn 5 row2) j sample_id = Emitted r2 ->
  nth_error row1 0 = Some chrom -> nth_error row2 0 = Some chrom ->
  nth_error row1 1 = Some pos1 -> nth_error row2 1 = Some pos2 ->
  position_value pos1 = position_value pos2 ->
  primary_key r1 = primary_key r2
  /\ forall tbl, has_key tbl (primary_key r1) = true ->
       insert_or_ignore tbl r2 = tbl.
Proof.
  intros H1 H2 Hc1 Hc2 Hp1 Hp2 Hpos.
  apply emitted_fields in H1
    as (c1 & p1 & ? & ? & ? & ? & ? & ? & ? & ? & ? & Hrow1 & _ & _ & Hr1).
  apply emitted_fields in H2
    as (c2 & p2 & ? & ? & ? & ? & ? & ? & ? & ? & ? & Hrow2 & _ & _ & Hr2).
  assert (Hkey : primary_key r1 = primary_key r2).
  { rewrite Hr1, Hr2. unfold primary_key. simpl.
    destruct row1 as [|a1 [|b1 row1]]; try discriminate.
    destruct row2 as [|a2 [|b2 row2]]; try discriminate.
    simpl in Hc1, Hc2, Hp1, Hp2.
    assert (a1 = c1 /\ b1 = p1) as [-> ->].
    { destruct row1 as [|? [|? [|? ?]]]; simpl in Hrow1;
        injection Hrow1; auto. }
    assert (a2 = c2 /\ b2 = p2) as [-> ->].
    { destruct row2 as [|? [|? [|? ?]]]; simpl in Hrow2;
        injection Hrow2; auto. }
    injection Hc1 as ->. injection Hc2 as ->.
    injection Hp1 as ->. injection Hp2 as ->.
    rewrite Hpos. reflexivity. }
  split; [exact Hkey|].
  intros tbl Hin. unfold insert_or_ignore. rewrite <- Hkey, Hin. reflexivity.
Qed.

(** ** The calls of [executemany] *)

Lemma at_loop_head_full_batches (b : nat) (conn : table) (st : loader) :
  1 <= b -> batch_size = Z.of_nat b ->
  (forall n, sqlite_fails n = false) ->
  at_loop_head conn st ->
  total_variants st = b * attempts st + List.length (batch st)
  /\ List.length (batch st) < b.
Proof.
  intros Hb Hsize Haccept.
  induction 1 as [|st row_num sample_id basic_data _ IH|st _ IH
                  |st r st' _ IH Hadd].
  - simpl. lia.
  - exact IH.
  - exact IH.
  - destruct IH as [Hcount Hlen].
    destruct (Nat.eq_dec (S (List.length (batch st))) b) as [Hfull|Hroom].
    + rewrite add_full in Hadd by lia. rewrite Haccept in Hadd.
      injection Hadd as <-. simpl. nia.
    + rewrite add_below in Hadd by lia. injection Hadd as <-. simpl.
      rewrite length_app. simpl. lia.
Qed.

(** X7. With a capacity b of at least one and a store that accepts every
    flush, a load that builds n observations calls [executemany] once for
    each full batch of b and once more for the rest, if there is one: n / b
    times, plus one when b does not divide n. *)
Theorem number_of_flushes (b : nat) (header : list string)
  (rows : list (list string)) (output_db : option table) (st : loader) :
  1 <= b -> batch_size = Z.of_nat b ->
  (forall n, sqlite_fails n = false) ->
  transform_and_load_data header rows output_db = Ok st ->
  attempts st
  = total_variants st / b + (if total_variants st mod b =? 0 then 0 else 1).
Proof.
  intros Hb Hsize Haccept. unfold transform_and_load_data.
  destruct (stream_rows header rows (create_database output_db)) as [s|e] eqn:Hs;
    cbn [bind]; [|discriminate].
  apply stream_rows_at_loop_head in Hs.
  destruct (at_loop_head_full_batches b _ s Hb Hsize Haccept Hs) as [Hcount Hlen].
  assert (Hdiv : attempts s = total_variants s / b).
  { apply (Nat.div_unique _ _ _ (List.length (batch s))); assumption. }
  assert (Hmod : List.length (batch s) = total_variants s mod b).
  { apply (Nat.mod_unique _ _ (attempts s)); assumption. }
  intros Hfinal.
  destruct (final_flush_cases s) as [[Hempty H]|[H|H]]; rewrite H in Hfinal;
    injection Hfinal as <-; cbn [attempts total_variants].
  - rewrite Hempty in Hmod. simpl in Hmod. rewrite <- Hmod. simpl. lia.
  - unfold final_flush in H. destruct (batch s) eqn:Hbatch.
    + injection H as H. apply (f_equal attempts) in H. simpl in H. lia.
    + simpl in Hmod. rewrite <- Hmod. simpl. lia.
  - unfold final_flush in H. destruct (batch s) eqn:Hbatch.
    + injection H as H. apply (f_equal attempts) in H. simpl in H. lia.
    + simpl in Hmod. rewrite <- Hmod. simpl. lia.
Qed.

(** ** The column labels *)

Lemma split_parts_no_sep (sep : ascii) (s p : string) :
  In p (split sep s) -> has_char sep p = false.
Proof.
  revert p. induction s as [|c rest IH]; intros p; simpl.
  - intros [<-|[]]. reflexivity.
  - destruct (Ascii.eqb c sep) eqn:Hc.
    + intros [<-|Hin]; [reflexivity|]. apply IH, Hin.
    + destruct (split sep rest) as [|q qs] eqn:Hsplit.
      * intros [<-|[]]. simpl. rewrite Hc. reflexivity.
      * intros [<-|Hin].
        -- simpl. rewrite Hc. simpl. apply IH. left. reflexivity.
        -- apply IH. right. exact Hin.
Qed.

Lemma split_no_sep (sep : ascii) (s : string) :
  has_char sep s = false -> split sep s = [s].
Proof.
  induction s as [|c rest IH]; simpl; [reflexivity|].
  intros H. apply orb_false_iff in H as [Hc Hrest].
  rewrite Hc, (IH Hrest). reflexivity.
Qed.

Lemma remove_char_removes (c : ascii) (s : string) :
  has_char c (remove_char c s) = false.
Proof.
  induction s as [|a rest IH]; simpl; [reflexivity|].
  destruct (Ascii.eqb a c) eqn:Ha; [exact IH|].
  simpl. rewrite Ha, IH. reflexivity.
Qed.

Lemma remove_char_keeps_absent (c d : ascii) (s : string) :
  has_char d s = false -> has_char d (remove_char c s) = false.
Proof.
  induction s as [|a rest IH]; simpl; [reflexivity|].
  intros H. apply orb_false_iff in H as [Ha Hrest].
  destruct (Ascii.eqb a c); [apply IH, Hrest|].
  simpl. rewrite Ha, (IH Hrest). reflexivity.
Qed.

Lemma remove_char_absent (c : ascii) (s : string) :
  has_char c s = false -> remove_char c s = s.
Proof.
  induction s as [|a rest IH]; simpl; [reflexivity|].
  intros H. apply orb_false_iff in H as [Ha Hrest].
  rewrite Ha, (IH Hrest). reflexivity.
Qed.

Lemma clean_label_clean (s : string) :
  has_char "_" (clean_label s) = false
  /\ has_char "X" (clean_label s) = false
  /\ clean_label (clean_label s) = clean_label s.
Proof.
  assert (H1 : has_char "_" (clean_label s) = false).
  { unfold clean_label. destruct (split "_" s) as [|p ps] eqn:Hsplit.
    - exfalso. exact (split_not_nil _ _ Hsplit).
    - apply remove_char_keeps_absent, (split_parts_no_sep "_" s).
      rewrite Hsplit. left. reflexivity. }
  assert (H2 : has_char "X" (clean_label s) = false).
  { unfold clean_label. destruct (split "_" s); apply remove_char_removes. }
  split; [exact H1|]. split; [exact H2|].
  unfold clean_label at 1. rewrite (split_no_sep _ _ H1).
  apply remove_char_absent, H2.
Qed.

Lemma first_parts_clean (xs : list string) :
  exists parts, for_each (first_part "_") xs = Ok parts
    /\ map (remove_char "X") parts = map clean_label xs.
Proof.
  induction xs as [|x xs (parts & Hparts & Hmap)].
  - exists []. split; reflexivity.
  - cbn [for_each]. unfold first_part at 1, getitem, clean_label.
    destruct (split "_" x) as [|p ps] eqn:Hsplit.
    + exfalso. exact (split_not_nil _ _ Hsplit).
    + simpl. rewrite Hparts. simpl. exists (p :: parts).
      split; [reflexivity|]. simpl. rewrite Hmap, Hsplit. reflexivity.
Qed.

(** A list put together again from its first five and what was made of the
    others. *)
Lemma first_five_and_others {A : Type} (l m : list A) :
  List.length m = List.length (skipn 5 l) ->
  firstn 5 (firstn 5 l ++ m) = firstn 5 l
  /\ skipn 5 (firstn 5 l ++ m) = m.
Proof.
  intros Hm. rewrite length_skipn in Hm.
  destruct (Nat.le_gt_cases 5 (List.length l)) as [Hlen|Hlen].
  - assert (H5 : List.length (firstn 5 l) = 5)
      by (rewrite length_firstn; lia).
    rewrite firstn_app, skipn_app, H5, firstn_all2, skipn_all2 by lia.
    simpl. rewrite app_nil_r. auto.
  - destruct m; [|simpl in Hm; lia].
    rewrite app_nil_r, firstn_firstn, skipn_all2.
    + auto.
    + rewrite length_firstn. lia.
Qed.

Lemma for_each_length {A B : Type} (f : A -> result B) (xs : list A)
  (ys : list B) :
  for_each f xs = Ok ys -> List.length ys = List.length xs.
Proof.
  revert ys. induction xs as [|x xs IH]; intros ys; simpl.
  - intros H. injection H as <-. reflexivity.
  - destruct (f x); simpl; [|discriminate].
    destruct (for_each f xs); simpl; [|discriminate].
    intros H. injection H as <-. simpl. rewrite (IH _ eq_refl). reflexivity.
Qed.

(** The header written, from the labels after the first two steps. *)
Lemma transform_columns_eq (columns : list string) :
  transform_columns columns =
  (renamed <- rename_first columns ;;
   let kept := drop (firstn 4 (skipn 5 renamed)) renamed in
   Ok (firstn 5 kept ++ map clean_label (skipn 5 kept))%list).
Proof.
  unfold transform_columns.
  destruct (rename_first columns) as [renamed|e]; cbn [bind]; [|reflexivity].
  set (kept := drop (firstn 4 (skipn 5 renamed)) renamed).
  destruct (first_parts_clean (skipn 5 kept)) as (parts & Hparts & Hmap).
  rewrite Hparts. cbn [bind].
  destruct (first_five_and_others kept parts (for_each_length _ _ _ Hparts))
    as [-> ->].
  rewrite Hmap. reflexivity.
Qed.

Lemma NoDup_app_disjoint {A : Type} (l1 l2 : list A) :
  NoDup (l1 ++ l2) -> forall a, In a l1 -> ~ In a l2.
Proof.
  induction l1 as [|x l1 IH]; simpl; intros Hnd a Hin; [contradiction|].
  inversion Hnd as [|? ? Hx Hrest]; subst.
  destruct Hin as [->|Hin].
  - intros H2. apply Hx, in_or_app. right. exact H2.
  - apply IH; assumption.
Qed.

Lemma drop_spec (labels columns : list string) (c : string) :
  In c (drop labels columns) <-> In c columns /\ ~ In c labels.
Proof.
  unfold drop. rewrite filter_In, negb_true_iff.
  assert (H : existsb (String.eqb c) labels = false <-> ~ In c labels).
  { split.
    - intros Hf Hin.
      assert (Ht : existsb (String.eqb c) labels = true).
      { apply existsb_exists. exists c. split; [exact Hin|].
        apply String.eqb_refl. }
      congruence.
    - intros Hn. destruct (existsb (String.eqb c) labels) eqn:He;
        [|reflexivity].
      apply existsb_exists in He as (x & Hin & Heq).
      apply String.eqb_eq in Heq. subst x. contradiction. }
  rewrite H. reflexivity.
Qed.

Lemma filter_all {A : Type} (f : A -> bool) (l : list A) :
  (forall a, In a l -> f a = true) -> filter f l = l.
Proof.
  induction l as [|x l IH]; simpl; intros H; [reflexivity|].
  rewrite (H x (or_introl eq_refl)), IH; [reflexivity|].
  intros a Ha. apply H. right. exact Ha.
Qed.

Lemma filter_none {A : Type} (f : A -> bool) (l : list A) :
  (forall a, In a l -> f a = false) -> filter f l = [].
Proof.
  induction l as [|x l IH]; simpl; intros H; [reflexivity|].
  rewrite (H x (or_introl eq_refl)). apply IH.
  intros a Ha. apply H. right. exact Ha.
Qed.

(** Labels that occur once: dropping the middle ones leaves the rest. *)
Lemma drop_middle (before middle after : list string) :
  NoDup (before ++ middle ++ after) ->
  drop middle (before ++ middle ++ after) = (before ++ after)%list.
Proof.
  intros Hnd. unfold drop. rewrite !filter_app.
  assert (Hin : forall c, In c middle ->
            negb (existsb (String.eqb c) middle) = false).
  { intros c Hc. apply negb_false_iff, existsb_exists. exists c.
    split; [exact Hc|apply String.eqb_refl]. }
  assert (Hout : forall c, ~ In c middle ->
            negb (existsb (String.eqb c) middle) = true).
  { intros c Hc. apply negb_true_iff.
    destruct (existsb (String.eqb c) middle) eqn:He; [|reflexivity].
    apply existsb_exists in He as (x & Hx & Heq).
    apply String.eqb_eq in Heq. subst x. contradiction. }
  rewrite (filter_all _ before), (filter_none _ middle), (filter_all _ after).
  - reflexivity.
  - intros c Hc. apply Hout. intros Hm.
    apply NoDup_app_remove_l in Hnd.
    exact (NoDup_app_disjoint _ _ Hnd c Hm Hc).
  - exact Hin.
  - intros c Hc. apply Hout. intros Hm.
    apply (NoDup_app_disjoint _ _ Hnd c Hc). apply in_or_app. left. exact Hm.
Qed.

(** X8. When the labels of the frame are all different, there are at least
    nine of them and none but the first is "CHROM", the header written is
    "CHROM", the second to fifth label as they stand, and the tenth label
    onwards, each cut at its first '_' and rid of every 'X': the sixth to
    ninth column are gone, and the sample labels the loader reads are the
    cleaned labels of the columns from the tenth on, in their order. *)
Theorem header_written (columns : list string) :
  NoDup columns ->
  9 <= List.length columns ->
  ~ In "CHROM" (tl columns) ->
  transform_columns columns
  = Ok ("CHROM" :: firstn 4 (tl columns)
        ++ map clean_label (skipn 9 columns))%list
  /\ forall out, transform_columns columns = Ok out ->
       skipn 5 out = map clean_label (skipn 9 columns).
Proof.
  intros Hnd Hlen Hchrom.
  destruct columns as [|c0 rest]; [simpl in Hlen; lia|].
  simpl in Hchrom, Hlen.
  inversion Hnd as [|? ? Hc0 Hrest]; subst.
  assert (Hren : rename_first (c0 :: rest) = Ok ("CHROM" :: rest)).
  { unfold rename_first, getitem. simpl. rewrite String.eqb_refl.
    f_equal. f_equal. rewrite <- (map_id rest) at 2.
    apply map_ext_in. intros c Hc.
    destruct (String.eqb c c0) eqn:Heq; [|reflexivity].
    apply String.eqb_eq in Heq. subst c. contradiction. }
  assert (Hnd' : NoDup ("CHROM" :: rest)) by (constructor; assumption).
  assert (Hsplit : ("CHROM" :: rest)
                   = (firstn 5 ("CHROM" :: rest)
                      ++ firstn 4 (skipn 5 ("CHROM" :: rest))
                      ++ skipn 9 ("CHROM" :: rest))%list).
  { rewrite <- (firstn_skipn 5 ("CHROM" :: rest)) at 1. f_equal.
    rewrite <- (firstn_skipn 4 (skipn 5 ("CHROM" :: rest))) at 1.
    rewrite skipn_skipn. reflexivity. }
  assert (Hkept : drop (firstn 4 (skipn 5 ("CHROM" :: rest))) ("CHROM" :: rest)
                  = (firstn 5 ("CHROM" :: rest) ++ skipn 9 ("CHROM" :: rest))%list).
  { rewrite Hsplit at 2. apply drop_middle. rewrite <- Hsplit. exact Hnd'. }
  assert (H5 : List.length (firstn 5 ("CHROM" :: rest)) = 5).
  { rewrite length_firstn. cbn [List.length]. lia. }
  assert (Hout : transform_columns (c0 :: rest)
                 = Ok ("CHROM" :: firstn 4 rest
                       ++ map clean_label (skipn 9 (c0 :: rest)))%list).
  { rewrite transform_columns_eq, Hren. cbn [bind]. rewrite Hkept.
    rewrite firstn_app, skipn_app, H5, Nat.sub_diag.
    rewrite (firstn_all2 (n := 5) (firstn 5 ("CHROM" :: rest))) by lia.
    rewrite (skipn_all2 (n := 5) (firstn 5 ("CHROM" :: rest))) by lia.
    simpl. rewrite app_nil_r. reflexivity. }
  split; [exact Hout|].
  intros out Hrun. rewrite Hout in Hrun. injection Hrun as <-.
  destruct rest as [|c1 [|c2 [|c3 [|c4 rest']]]]; simpl in Hlen; try lia.
  reflexivity.
Qed.

(** X9. Whatever the labels of the frame, the header written has no more
    labels than the frame had, and every label after the fifth has no '_'
    and no 'X' left, so that cleaning it again changes nothing; a frame
    without columns makes the function raise. *)
Theorem sample_labels_are_clean (columns : list string) :
  (columns = [] -> transform_columns columns = Raise IndexError)
  /\ (columns <> [] ->
      exists out, transform_columns columns = Ok out
        /\ List.length out <= List.length columns
        /\ forall label, In label (skipn 5 out) ->
             has_char "_" label = false
             /\ has_char "X" label = false
             /\ clean_label label = label).
Proof.
  split.
  - intros ->. reflexivity.
  - intros Hne. rewrite transform_columns_eq.
    destruct columns as [|c0 rest]; [contradiction|].
    unfold rename_first, getitem. cbn [nth_error bind].
    set (renamed := map _ (c0 :: rest)).
    set (kept := drop (firstn 4 (skipn 5 renamed)) renamed).
    eexists. split; [reflexivity|].
    assert (Hlen : List.length kept <= List.length (c0 :: rest)).
    { unfold kept, drop, renamed.
      rewrite <- (length_map (fun c => if String.eqb c c0 then "CHROM" else c)
                    (c0 :: rest)).
      apply filter_length_le. }
    destruct (first_five_and_others kept (map clean_label (skipn 5 kept)))
      as [_ Hskip]; [apply length_map|].
    split.
    + rewrite length_app, length_map, length_firstn, length_skipn. lia.
    + rewrite Hskip. intros label Hin.
      apply in_map_iff in Hin as (x & <- & _).
      destruct (clean_label_clean x) as (H1 & H2 & H3).
      repeat split; assumption.
Qed.

End Loader.

(** ** Loading twice *)

(** C3, as the code has it.  A load keeps the rows the table had, in their
    places, and only adds rows; a row whose key (file_id, CHROM, POS) is in
    the table is skipped, so the first write stays.  When the last flush of a load
    was not refused by the store, loading the same input again into the
    table that load left, whatever the store answers this time, leaves the
    same rows and the same number of rows. *)
Theorem reload_is_idempotent (int_max_str_digits : nat) (batch_size : Z)
  (first_run second_run : nat -> bool) (header : list string)
  (rows : list (list string)) (output_db : option table) (st1 : loader) :
  transform_and_load_data int_max_str_digits batch_size first_run
    header rows output_db = Ok st1 ->
  ~ In SQLite_error_final_batch (stdout st1) ->
  (exists added, db st1 = (create_database output_db ++ added)%list)
  /\ (forall tbl r, has_key tbl (primary_key r) = true ->
        executemany tbl [r] = tbl)
  /\ exists st2,
       transform_and_load_data int_max_str_digits batch_size second_run
         header rows (Some (db st1)) = Ok st2
       /\ db st2 = db st1
       /\ List.length (db st2) = List.length (db st1).
Proof.
  intros Hload Hlog. split; [|split].
  - eapply load_extends. exact Hload.
  - intros tbl r Hkey. apply executemany_present.
    intros r' [<-|[]]. exact Hkey.
  - pose proof (load_holds_input _ _ _ _ _ _ _ Hload Hlog) as Hholds.
    destruct (load_settled int_max_str_digits batch_size second_run
                (db st1) header rows Hholds) as (st2 & Hst2 & Hdb).
    exists st2. rewrite Hdb. auto.
Qed.

(** ** The scenarios of the specification *)

(** One row under the header CHROM,POS,ID,REF,ALT,S1,S2: an observation for
    S1 with depth 30 and quality 90, none for S2 and its all-zero sentinel. *)
Example end_to_end_scenario :
  transform_and_load_data 4300 10000 store_accepts header_S1_S2
    [["1"; "100"; "rs1"; "A"; "G"; "0/1:10,5:30:90:10,0,30"; "0:0:0:0:0"]] None
  = Ok (mkLoader [record_S1] [record_S1] 1 1 1 []).
Proof. vm_compute. reflexivity. Qed.

(** Two quality sub-fields that are not digits: both null, the rest kept. *)
Example null_field_scenario :
  parse_cell 4300 "0/1:10,5:.:.,:99,0,30"
  = Ok (Some (mkSampleCell "0/1" "10,5" None None "99,0,30")).
Proof. reflexivity. Qed.

(** One digit more than [int] converts: the conversion is refused. *)
Example digit_limit_scenario :
  py_int 4300 (zeros 4300) = Ok 0%Z
  /\ py_int 4300 (zeros 4301) = Raise ValueError
  /\ py_int 0 (zeros 4301) = Ok 0%Z.
Proof. repeat split; vm_compute; reflexivity. Qed.

(** ** The claims as they were worded, on inputs where the code differs *)

(** C2: the third part fails the digit test, and the quality is kept. *)
Lemma depth_null_quality_kept :
  split ":" "0/1:10,5:.:99:0,30,60" = ["0/1"; "10,5"; "."; "99"; "0,30,60"]
  /\ isdigit "." = false
  /\ parse_cell 4300 "0/1:10,5:.:99:0,30,60"
     = Ok (Some (mkSampleCell "0/1" "10,5" None (Some 99%Z) "0,30,60")).
Proof. repeat split. Qed.

(** C3: the store refuses the only flush of the first load and takes that of
    the second: the table is not the same after the second load. *)
Lemma second_load_adds_rows :
  transform_and_load_data 4300 10000 store_refuses header_S1 [row_S1] None
  = Ok (mkLoader [record_S1] [] 1 1 1 [SQLite_error_final_batch])
  /\ transform_and_load_data 4300 10000 store_accepts header_S1 [row_S1] (Some [])
     = Ok (mkLoader [record_S1] [record_S1] 1 1 1 [])
  /\ [record_S1] <> ([] : table).
Proof. split; [|split]; try (vm_compute; reflexivity). discriminate. Qed.

(** C4: the first flush is refused, and its record is in the batch after it
    and in the table at the end. *)
Lemma refused_batch_is_written_later :
  add 1 store_refuses_first record_S1 (initial [])
  = Ok (mkLoader [record_S1] [] 0 1 1 [SQLite_error])
  /\ transform_and_load_data 4300 1 store_refuses_first header_S1_S2
       [row_S1_S2] None
     = Ok (mkLoader [] [record_S1; record_S2] 1 2 2 [SQLite_error]).
Proof. split; vm_compute; reflexivity. Qed.

(** C7. The stored position is to be a non-negative integer, 0 for a POS
    cell that cannot be parsed, and the row is not to fail.  The code does
    so for a POS cell that fails the digit test: the row with "." stores its
    record at position 0.  It misses a POS cell that passes the digit test
    and that [int] rejects: with a superscript two the row stores no record
    and prints an error.  The conversion of the depth and the quality meets
    the same text and falls back to null and a record. *)
Lemma superscript_position_not_coerced :
  isdigit superscript_two = true
  /\ py_int 4300 superscript_two = Raise ValueError
  /\ transform_and_load_data 4300 10000 store_accepts header_S1
       [row_superscript] None
     = Ok (mkLoader [] [] 1 0 0
             [Error_processing_row 1 "S1" ["1"; superscript_two; "rs1"; "A"; "G"]])
  /\ transform_and_load_data 4300 10000 store_accepts header_S1
       [row_no_position] None
     = Ok (mkLoader [record_no_position] [record_no_position] 1 1 1 [])
  /\ parse_cell 4300 ("0/1:10,5:" ++ superscript_two ++ ":90:10,0,30")
     = Ok (Some (mkSampleCell "0/1" "10,5" None None "10,0,30")).
Proof. repeat split. Qed.

(** C8: a capacity of one, one record, a store that refuses: one flush, and
    the batch is not empty after it. *)
Lemma batch_not_empty_after_refused_flush :
  add_all 1 store_refuses [record_S1] (initial [])
  = Ok (mkLoader [record_S1] [] 0 1 1 [SQLite_error])
  /\ batch (mkLoader [record_S1] [] 0 1 1 [SQLite_error]) <> [].
Proof. split; [vm_compute; reflexivity|discriminate]. Qed.

(** C9: a capacity of one and a store that refuses: after a row of two
    samples the batch holds two records. *)
Lemma batch_exceeds_capacity :
  stream_rows 4300 1 store_refuses header_S1_S2 [row_S1_S2] []
  = Ok (mkLoader [record_S1; record_S2] [] 1 2 2 [SQLite_error; SQLite_error])
  /\ reachable 1 store_refuses []
       (mkLoader [record_S1; record_S2] [] 1 2 2 [SQLite_error; SQLite_error])
  /\ ~ (Z.of_nat (List.length [record_S1; record_S2]) <= 1)%Z.
Proof.
  assert (Hrun : stream_rows 4300 1 store_refuses header_S1_S2 [row_S1_S2] []
                 = Ok (mkLoader [record_S1; record_S2] [] 1 2 2
                         [SQLite_error; SQLite_error]))
    by (vm_compute; reflexivity).
  split; [exact Hrun|]. split.
  - apply reach_head.
    apply (stream_rows_at_loop_head 4300 1 store_refuses header_S1_S2
             [row_S1_S2] []).
    exact Hrun.
  - simpl. lia.
Qed.

(** ** The theorems at work on the worked inputs *)

Lemma parse_cell_absent_exactly_witness :
  absent_cell ".:.:.:.:."
  /\ parse_cell 4300 ".:.:.:.:." = Ok None
  /\ process_sample 4300 10000 store_accepts 1
       ["1"; "100"; "rs1"; "A"; "G"; "0/1:10,5:30:90:10,0,30"; ".:.:.:.:."]
       ["1"; "100"; "rs1"; "A"; "G"] (initial []) 1 "S2"
     = Ok (initial []).
Proof.
  destruct (parse_cell_absent_exactly 4300 10000 store_accepts ".:.:.:.:.")
    as (Hiff & _ & Hskip).
  assert (Habs : absent_cell ".:.:.:.:.") by (right; right; left; reflexivity).
  split; [exact Habs|]. split; [apply Hiff; exact Habs|].
  apply (Hskip Habs 1
           ["1"; "100"; "rs1"; "A"; "G"; "0/1:10,5:30:90:10,0,30"; ".:.:.:.:."]
           (initial []) 1 "S2").
  reflexivity.
Defined.

Lemma parse_cell_quality_fields_witness :
  sentinel_or_empty "0/1:10,5:.:99:0,30,60" = false
  /\ split ":" "0/1:10,5:.:99:0,30,60" = ["0/1"; "10,5"; "."; "99"; "0,30,60"]
  /\ exists c, parse_cell 4300 "0/1:10,5:.:99:0,30,60" = Ok (Some c)
       /\ gt c = "0/1" /\ dp c = None /\ gq c = Some 99%Z.
Proof.
  split; [reflexivity|]. split; [reflexivity|].
  destruct (parse_cell_quality_fields 4300 "0/1:10,5:.:99:0,30,60"
              "0/1" "10,5" "." "99" "0,30,60" eq_refl eq_refl)
    as (c & Hparse & Hgt & _ & _ & _ & _ & Hind & _).
  destruct (Hind eq_refl eq_refl) as [Hdp Hgq].
  exists c. rewrite Hdp, Hgq. repeat split; assumption.
Defined.

Lemma reload_is_idempotent_witness :
  transform_and_load_data 4300 10000 store_accepts header_S1 [row_S1] None
  = Ok (mkLoader [record_S1] [record_S1] 1 1 1 [])
  /\ ~ In SQLite_error_final_batch (stdout (mkLoader [record_S1] [record_S1] 1 1 1 []))
  /\ exists st2,
       transform_and_load_data 4300 10000 store_refuses_first header_S1
         [row_S1] (Some [record_S1]) = Ok st2
       /\ db st2 = [record_S1].
Proof.
  assert (Hload : transform_and_load_data 4300 10000 store_accepts header_S1
                    [row_S1] None
                  = Ok (mkLoader [record_S1] [record_S1] 1 1 1 []))
    by (vm_compute; reflexivity).
  assert (Hlog : ~ In SQLite_error_final_batch
                     (stdout (mkLoader [record_S1] [record_S1] 1 1 1 [])))
    by (simpl; tauto).
  split; [exact Hload|]. split; [exact Hlog|].
  destruct (reload_is_idempotent 4300 10000 store_accepts store_refuses_first
              header_S1 [row_S1] None _ Hload Hlog)
    as (_ & _ & st2 & Hrun & Hdb & _).
  exists st2. split; assumption.
Defined.

Lemma flush_error_keeps_batch_witness :
  store_refuses_first (attempts (mkLoader [record_S1] [] 0 1 0 [])) = true
  /\ (1 <= Z.of_nat (List.length (batch (mkLoader [record_S1] [] 0 1 0 []))))%Z
  /\ exists st', flush_if_full 1 store_refuses_first
                   (mkLoader [record_S1] [] 0 1 0 []) = Ok st'
       /\ db st' = [] /\ batch st' = [record_S1].
Proof.
  split; [reflexivity|]. split; [simpl; lia|].
  destruct (flush_error_keeps_batch 1 store_refuses_first
              (mkLoader [record_S1] [] 0 1 0 []) eq_refl ltac:(simpl; lia))
    as ((st' & Hflush & Hdb & _ & Hbatch & _) & _).
  exists st'. repeat split; assumption.
Defined.

Lemma observation_count_bound_witness :
  exists st,
    transform_and_load_data 4300 10000 store_accepts header_S1_S2
      [row_S1_S2] None = Ok st
    /\ total_variants st <= 1 * 2.
Proof.
  destruct (observation_count_bound 4300 10000 store_accepts header_S1_S2
              [row_S1_S2] None) as (st & Hrun & _ & Hle & _).
  exists st. split; [exact Hrun|exact Hle].
Defined.

Lemma short_row_tolerance_witness :
  List.length row_S1 <= 1 + 5
  /\ process_sample 4300 10000 store_accepts 1 row_S1 (firstn 5 row_S1)
       (initial []) 1 "S2" = Ok (initial []).
Proof.
  split; [simpl; lia|].
  apply (proj1 (short_row_tolerance 4300 10000 store_accepts header_S1_S2
                  (initial []) 1 row_S1)).
  simpl; lia.
Defined.

Lemma stored_position_witness :
  decimal "100" = true
  /\ exists r, make_record 4300 "S1" ["1"; "100"; "rs1"; "A"; "G"]
                 (mkSampleCell "0/1" "10,5" (Some 30%Z) (Some 90%Z) "10,0,30")
               = Ok r
       /\ POS r = 100%Z.
Proof.
  split; [reflexivity|].
  destruct (stored_position 4300 10000 store_accepts "S1" "1" "100" "rs1" "A" "G"
              ["1"; "100"; "rs1"; "A"; "G"]
              (mkSampleCell "0/1" "10,5" (Some 30%Z) (Some 90%Z) "10,0,30")
              eq_refl) as (_ & Hdec & _).
  exact (Hdec eq_refl eq_refl).
Defined.

Lemma batch_flush_boundary_witness :
  batch (initial []) = []
  /\ (1 <= 2)%Z
  /\ Z.of_nat (List.length [record_S1; record_S2]) = 2%Z
  /\ exists st', add_all 2 store_accepts [record_S1; record_S2] (initial []) = Ok st'
       /\ attempts st' = 1 /\ batch st' = [].
Proof.
  split; [reflexivity|]. split; [lia|]. split; [reflexivity|].
  destruct (batch_flush_boundary 2 store_accepts [record_S1; record_S2]
              (initial []) eq_refl ltac:(lia) eq_refl)
    as (_ & st' & Hrun & Hattempts & Hok & _).
  exists st'. split; [exact Hrun|]. split; [exact Hattempts|].
  exact (proj1 (Hok eq_refl)).
Defined.

Lemma batch_bound_witness :
  reachable 1 store_refuses []
    (mkLoader [record_S1; record_S2] [] 1 2 2 [SQLite_error; SQLite_error])
  /\ (Z.of_nat (List.length [record_S1; record_S2]) <= Z.max 1 1 + 2)%Z.
Proof.
  destruct (batch_bound 4300 1 store_refuses []) as [Hruns Hbound].
  assert (Hreach : reachable 1 store_refuses []
            (mkLoader [record_S1; record_S2] [] 1 2 2 [SQLite_error; SQLite_error])).
  { apply (Hruns header_S1_S2 [row_S1_S2]). vm_compute. reflexivity. }
  split; [exact Hreach|].
  exact (proj1 (Hbound _ Hreach)).
Defined.

Lemma short_row_is_counted_witness :
  List.length ["1"; "100"] < 5
  /\ process_row 4300 10000 store_accepts ["S1"; "S2"] (initial []) 1 ["1"; "100"]
     = Ok (mkLoader [] [] 1 0 0 []).
Proof.
  split; [simpl; lia|].
  destruct (short_row_is_counted 4300 10000 store_accepts ["S1"; "S2"]
              (initial []) 1 ["1"; "100"] ltac:(simpl; lia))
    as (_ & st' & Hrun & Hst' & _).
  rewrite Hrun, Hst'. reflexivity.
Defined.


(** ** The further theorems at work on the worked inputs *)

Lemma table_is_fold_of_observations_witness :
  transform_and_load_data 4300 1 store_refuses_first header_S1_S2
    [row_S1_S2] None
  = Ok (mkLoader [] [record_S1; record_S2] 1 2 2 [SQLite_error])
  /\ [record_S1; record_S2]
     = fold_left insert_or_ignore
         (all_records 4300 header_S1_S2 [row_S1_S2]) [].
Proof.
  assert (Hload : transform_and_load_data 4300 1 store_refuses_first
                    header_S1_S2 [row_S1_S2] None
                  = Ok (mkLoader [] [record_S1; record_S2] 1 2 2 [SQLite_error]))
    by (vm_compute; reflexivity).
  split; [exact Hload|].
  apply (proj2 (table_is_fold_of_observations 4300 1 store_refuses_first
                  header_S1_S2 [row_S1_S2] None _ Hload)).
  simpl. intros [H|[]]. discriminate.
Defined.

Lemma reported_count_bounds_rows_witness :
  transform_and_load_data 4300 10000 store_accepts header_S1_S2
    [row_S1_S2; row_S1_S2] None
  = Ok (mkLoader [record_S1; record_S2; record_S1; record_S2]
          [record_S1; record_S2] 2 4 1 [])
  /\ 4 = List.length (all_records 4300 header_S1_S2 [row_S1_S2; row_S1_S2])
  /\ List.length [record_S1; record_S2] <= 0 + 4.
Proof.
  assert (Hload : transform_and_load_data 4300 10000 store_accepts header_S1_S2
                    [row_S1_S2; row_S1_S2] None
                  = Ok (mkLoader [record_S1; record_S2; record_S1; record_S2]
                          [record_S1; record_S2] 2 4 1 []))
    by (vm_compute; reflexivity).
  split; [exact Hload|].
  destruct (reported_count_bounds_rows 4300 10000 store_accepts header_S1_S2
              [row_S1_S2; row_S1_S2] None _ Hload) as (Hcount & _ & Hle).
  split; [exact Hcount|exact Hle].
Defined.

Lemma load_keeps_keys_unique_witness :
  keys_unique (create_database None)
  /\ transform_and_load_data 4300 10000 store_accepts header_S1_S2
       [row_S1_S2; row_S1_S2] None
     = Ok (mkLoader [record_S1; record_S2; record_S1; record_S2]
             [record_S1; record_S2] 2 4 1 [])
  /\ keys_unique [record_S1; record_S2].
Proof.
  assert (Hempty : keys_unique (create_database None)) by constructor.
  assert (Hload : transform_and_load_data 4300 10000 store_accepts header_S1_S2
                    [row_S1_S2; row_S1_S2] None
                  = Ok (mkLoader [record_S1; record_S2; record_S1; record_S2]
                          [record_S1; record_S2] 2 4 1 []))
    by (vm_compute; reflexivity).
  split; [exact Hempty|]. split; [exact Hload|].
  exact (load_keeps_keys_unique 4300 10000 store_accepts header_S1_S2
           [row_S1_S2; row_S1_S2] None _ Hempty Hload).
Defined.

Lemma first_observation_of_a_key_is_stored_witness :
  transform_and_load_data 4300 10000 store_accepts header_S1
    [row_no_position; row_no_position_next] None
  = Ok (mkLoader [record_no_position; record_no_position_next]
          [record_no_position] 2 2 1 [])
  /\ ~ In record_no_position_next [record_no_position].
Proof.
  assert (Hload : transform_and_load_data 4300 10000 store_accepts header_S1
                    [row_no_position; row_no_position_next] None
                  = Ok (mkLoader [record_no_position; record_no_position_next]
                          [record_no_position] 2 2 1 []))
    by (vm_compute; reflexivity).
  split; [exact Hload|].
  intros Hin.
  apply (first_observation_of_a_key_is_stored 4300 10000 store_accepts
           header_S1 [row_no_position; row_no_position_next] None _
           record_no_position_next Hload) in Hin.
  - destruct Hin as [[]|(_ & before & after & Hall & Hfirst)].
    destruct before as [|b before]; [discriminate|].
    injection Hall as <- Hrest.
    apply (Hfirst record_no_position); [left|]; reflexivity.
  - simpl. intros [].
Defined.

Lemma record_is_made_of_the_cells_witness :
  sample_outcome 4300 row_S1 (firstn 5 row_S1) 0 "S1" = Emitted record_S1
  /\ process_sample 4300 10000 store_accepts 1 row_S1 (firstn 5 row_S1)
       (initial []) 0 "S1"
     = add 10000 store_accepts record_S1 (initial []).
Proof.
  assert (Hout : sample_outcome 4300 row_S1 (firstn 5 row_S1) 0 "S1"
                 = Emitted record_S1) by reflexivity.
  split; [exact Hout|].
  exact (proj1 (record_is_made_of_the_cells 4300 10000 store_accepts 1 row_S1
                  (initial []) 0 "S1" record_S1 Hout)).
Defined.

Lemma same_key_is_ignored_witness :
  position_value "." = position_value "NA"
  /\ primary_key record_no_position = primary_key record_no_position_next
  /\ insert_or_ignore [record_no_position] record_no_position_next
     = [record_no_position].
Proof.
  assert (Hpos : position_value "." = position_value "NA") by reflexivity.
  split; [exact Hpos|].
  destruct (same_key_is_ignored 4300 row_no_position row_no_position_next 0 0
              "S1" "1" "." "NA" record_no_position record_no_position_next
              eq_refl eq_refl eq_refl eq_refl eq_refl eq_refl Hpos)
    as [Hkey Hignored].
  split; [exact Hkey|]. apply Hignored. reflexivity.
Defined.

Lemma number_of_flushes_witness :
  transform_and_load_data 4300 3 store_accepts header_S1_S2
    [row_S1_S2; row_S1_S2_next] None
  = Ok (mkLoader [record_S2_next]
          [record_S1; record_S2; record_S1_next; record_S2_next] 2 4 2 [])
  /\ 2 = 4 / 3 + (if 4 mod 3 =? 0 then 0 else 1).
Proof.
  assert (Hload : transform_and_load_data 4300 3 store_accepts header_S1_S2
                    [row_S1_S2; row_S1_S2_next] None
                  = Ok (mkLoader [record_S2_next]
                          [record_S1; record_S2; record_S1_next; record_S2_next]
                          2 4 2 []))
    by (vm_compute; reflexivity).
  split; [exact Hload|].
  exact (number_of_flushes 4300 3 store_accepts 3 header_S1_S2
           [row_S1_S2; row_S1_S2_next] None _ ltac:(lia) eq_refl
           (fun _ => eq_refl) Hload).
Defined.

Lemma header_written_witness :
  NoDup vcf_columns
  /\ transform_columns vcf_columns
     = Ok ["CHROM"; "POS"; "ID"; "REF"; "ALT"; "S1"; "S2"].
Proof.
  assert (Hnd : NoDup vcf_columns).
  { unfold vcf_columns.
    repeat (constructor;
            [simpl; intros H;
             repeat (destruct H as [H|H]; [discriminate|]); exact H|]).
    constructor. }
  split; [exact Hnd|].
  refine (proj1 (header_written vcf_columns Hnd ltac:(simpl; lia) _)).
  simpl. intros H. repeat (destruct H as [H|H]; [discriminate|]). exact H.
Defined.

Lemma sample_labels_are_clean_witness :
  vcf_columns <> []
  /\ transform_columns vcf_columns
     = Ok ["CHROM"; "POS"; "ID"; "REF"; "ALT"; "S1"; "S2"]
  /\ List.length ["CHROM"; "POS"; "ID"; "REF"; "ALT"; "S1"; "S2"]
     <= List.length vcf_columns
  /\ forall label, In label ["S1"; "S2"] ->
       has_char "_" label = false
       /\ has_char "X" label = false
       /\ clean_label label = label.
Proof.
  assert (Hne : vcf_columns <> []) by discriminate.
  assert (Hrun : transform_columns vcf_columns
                 = Ok ["CHROM"; "POS"; "ID"; "REF"; "ALT"; "S1"; "S2"])
    by reflexivity.
  destruct (proj2 (sample_labels_are_clean vcf_columns) Hne)
    as (out & Hout & Hlen & Hclean).
  rewrite Hrun in Hout. injection Hout as <-.
  split; [exact Hne|]. split; [exact Hrun|]. split; [exact Hlen|].
  intros label Hin. apply Hclean. exact Hin.
Defined.
